(** * The system tray icon host of yasb (src/core/widgets/yasb/systray.py)

    A shallow embedding of [SystrayWidget]: the registry of live icon
    widgets, the two layout groups, the in-memory [current_state] map and
    the per-monitor state file, with the handlers that the tray monitor,
    the timers and the persistence hooks run on the UI thread. *)

From Stdlib Require Import ZArith NArith Lia Ascii String.
From stdpp Require Import gmap strings list fin_maps sorting.

Local Open Scope Z_scope.

(** ** Data model *)

(** [uuid.UUID]: compared and hashed by its 128-bit integer value. *)
Abbreviation UUID := N.

Definition hex_char (d : N) : ascii :=
  match d with
  | 0%N => "0" | 1%N => "1" | 2%N => "2" | 3%N => "3"
  | 4%N => "4" | 5%N => "5" | 6%N => "6" | 7%N => "7"
  | 8%N => "8" | 9%N => "9" | 10%N => "a" | 11%N => "b"
  | 12%N => "c" | 13%N => "d" | 14%N => "e" | _ => "f"
  end%char.

(** The [n] low hexadecimal digits of [v], most significant first. *)
Fixpoint hex_digits (n : nat) (v : N) : string :=
  match n with
  | O => EmptyString
  | S m => String (hex_char (N.land (N.shiftr v (4 * N.of_nat m)) 15)) (hex_digits m v)
  end.

(** [str(uuid)]: the canonical 8-4-4-4-12 form. *)
Definition uuid_str (u : UUID) : string :=
  (hex_digits 8 (N.shiftr u 96) +:+ "-" +:+ hex_digits 4 (N.shiftr u 80) +:+ "-"
   +:+ hex_digits 4 (N.shiftr u 64) +:+ "-" +:+ hex_digits 4 (N.shiftr u 48) +:+ "-"
   +:+ hex_digits 12 u)%string.

Definition BATTERY_ICON_GUID : UUID := 0x7820ae7523e3422982c1e41cb67d5b9c%N.
Definition VOLUME_ICON_GUID : UUID := 0x7820ae7323e3422982c1e41cb67d5b9c%N.

(** The presence-flag bits of [core.utils.systray.win_types]. That module
    is not part of the sources at hand, so the development is parametric
    in the six constants. *)
Class WinTypes := {
  NIF_MESSAGE : Z;
  NIF_ICON : Z;
  NIF_TIP : Z;
  NIF_STATE : Z;
  NIF_GUID : Z;
  NIF_INFO : Z
}.

(** The values of the Windows SDK header shellapi.h, which the program
    runs with. *)
Definition shellapi : WinTypes := {|
  NIF_MESSAGE := 0x1;
  NIF_ICON := 0x2;
  NIF_TIP := 0x4;
  NIF_STATE := 0x8;
  NIF_GUID := 0x20;
  NIF_INFO := 0x10
|}.

(** [IconData] of [core.utils.systray.tray_monitor]: the attributes that
    [update_icon_data] reads and writes. [icon_image] is an opaque image
    token. *)
Record IconData := mkIconData {
  message_type : Z;
  hWnd : Z;
  uID : Z;
  uFlags : Z;
  uVersion : Z;
  uCallbackMessage : Z;
  hIcon : Z;
  szTip : string;
  dwState : Z;
  dwStateMask : Z;
  guid : option UUID;
  dwInfoFlags : Z;
  szInfoTitle : string;
  szInfo : string;
  uTimeout : Z;
  icon_image : option Z;
  exe : string;
  exe_path : string
}.

(** Modelled from the spec: the constructor [IconData()] is declared in
    core/utils/systray/tray_monitor.py, which is not among the sources; a
    new record is "created empty": no GUID, no image, zero numbers and
    empty strings. *)
Definition IconData_new : IconData :=
  mkIconData 0 0 0 0 0 0 0 "" 0 0 None 0 "" "" 0 None "" "".

Module IconState.
(** Modelled from the spec: [IconState] is declared in
    core/utils/systray/systray_widget.py, which is not among the
    sources; it is the record [{is_pinned: bool, index: int}]. *)
Record t := mk { is_pinned : bool; index : Z }.
End IconState.

Module IconWidget.
(** An [IconWidget] object: [obj_id] is the identity of the Python
    object, [isHidden] the flag written by [setHidden]. *)
Record t := mk {
  obj_id : nat;
  data : option IconData;
  is_pinned : bool;
  isHidden : bool
}.
End IconWidget.

(** The part of a [SystrayWidget] that the reconciler, the sorter and the
    persistence code read and write. A layout holds references (object
    identities) to its icon widgets, in display order; [next_obj] is the
    identity of the next [IconWidget()] to be allocated. Rendering, group
    visibility and the timers themselves are left out. *)
Record Systray := mkSystray {
  filtered_guids : gset N;
  icons : list IconWidget.t;
  current_state : gmap string IconState.t;
  unpinned_layout : list nat;
  pinned_layout : list nat;
  next_obj : nat
}.

(** ** Identity resolution: [find_icon] *)

(** First loop of [find_icon]: the first icon whose GUID equals [uuid]. *)
Fixpoint find_by_guid (l : list IconWidget.t) (uuid : UUID) : option IconWidget.t :=
  match l with
  | [] => None
  | icon :: rest =>
      match IconWidget.data icon with
      | None => find_by_guid rest uuid
      | Some d =>
          match guid d with
          | None => find_by_guid rest uuid
          | Some g => if (g =? uuid)%N then Some icon else find_by_guid rest uuid
          end
      end
  end.

(** Second loop of [find_icon]: the first icon with the pair [(hwnd, uID)]. *)
Fixpoint find_by_hwnd (l : list IconWidget.t) (hwnd uid : Z) : option IconWidget.t :=
  match l with
  | [] => None
  | icon :: rest =>
      match IconWidget.data icon with
      | None => find_by_hwnd rest hwnd uid
      | Some d =>
          if (hWnd d =? hwnd) && (uID d =? uid) then Some icon
          else find_by_hwnd rest hwnd uid
      end
  end.

(** [find_icon]: the GUID loop runs only when a GUID is given, and control
    falls through to the [(hwnd, uID)] loop when it returns nothing. *)
Definition find_icon (l : list IconWidget.t) (uuid : option UUID) (hwnd uid : Z)
  : option IconWidget.t :=
  match uuid with
  | Some u =>
      match find_by_guid l u with
      | Some icon => Some icon
      | None => find_by_hwnd l hwnd uid
      end
  | None => find_by_hwnd l hwnd uid
  end.

(** ** Field gating: [update_icon_data] *)

(** Truth value of [uFlags & flag]. *)
Definition has_flag (flags flag : Z) : bool := negb (Z.land flags flag =? 0).

(** The [setattr] loop over [direct_attributes]. *)
Definition copy_direct (new old : IconData) : IconData :=
  mkIconData (message_type new) (hWnd new) (uID new) (uFlags new)
    (uVersion old) (uCallbackMessage old) (hIcon old) (szTip old)
    (dwState old) (dwStateMask old) (guid old)
    (dwInfoFlags old) (szInfoTitle old) (szInfo old) (uTimeout old)
    (icon_image new) (exe new) (exe_path new).

Definition copy_version (new old : IconData) : IconData :=
  mkIconData (message_type old) (hWnd old) (uID old) (uFlags old)
    (uVersion new) (uCallbackMessage old) (hIcon old) (szTip old)
    (dwState old) (dwStateMask old) (guid old)
    (dwInfoFlags old) (szInfoTitle old) (szInfo old) (uTimeout old)
    (icon_image old) (exe old) (exe_path old).

Definition copy_message (new old : IconData) : IconData :=
  mkIconData (message_type old) (hWnd old) (uID old) (uFlags old)
    (uVersion old) (uCallbackMessage new) (hIcon old) (szTip old)
    (dwState old) (dwStateMask old) (guid old)
    (dwInfoFlags old) (szInfoTitle old) (szInfo old) (uTimeout old)
    (icon_image old) (exe old) (exe_path old).

Definition copy_icon (new old : IconData) : IconData :=
  mkIconData (message_type old) (hWnd old) (uID old) (uFlags old)
    (uVersion old) (uCallbackMessage old) (hIcon new) (szTip old)
    (dwState old) (dwStateMask old) (guid old)
    (dwInfoFlags old) (szInfoTitle old) (szInfo old) (uTimeout old)
    (icon_image old) (exe old) (exe_path old).

Definition copy_tip (new old : IconData) : IconData :=
  mkIconData (message_type old) (hWnd old) (uID old) (uFlags old)
    (uVersion old) (uCallbackMessage old) (hIcon old) (szTip new)
    (dwState old) (dwStateMask old) (guid old)
    (dwInfoFlags old) (szInfoTitle old) (szInfo old) (uTimeout old)
    (icon_image old) (exe old) (exe_path old).

Definition copy_state (new old : IconData) : IconData :=
  mkIconData (message_type old) (hWnd old) (uID old) (uFlags old)
    (uVersion old) (uCallbackMessage old) (hIcon old) (szTip old)
    (dwState new) (dwStateMask new) (guid old)
    (dwInfoFlags old) (szInfoTitle old) (szInfo old) (uTimeout old)
    (icon_image old) (exe old) (exe_path old).

Definition copy_guid (new old : IconData) : IconData :=
  mkIconData (message_type old) (hWnd old) (uID old) (uFlags old)
    (uVersion old) (uCallbackMessage old) (hIcon old) (szTip old)
    (dwState old) (dwStateMask old) (guid new)
    (dwInfoFlags old) (szInfoTitle old) (szInfo old) (uTimeout old)
    (icon_image old) (exe old) (exe_path old).

Definition copy_info (new old : IconData) : IconData :=
  mkIconData (message_type old) (hWnd old) (uID old) (uFlags old)
    (uVersion old) (uCallbackMessage old) (hIcon old) (szTip old)
    (dwState old) (dwStateMask old) (guid old)
    (dwInfoFlags new) (szInfoTitle new) (szInfo new) (uTimeout new)
    (icon_image old) (exe old) (exe_path old).

(** The dict [flag_dependent_attrs], in its insertion order: each flag
    with the copy of its attributes. *)
Definition flag_dependent_attrs {W : WinTypes}
  : list (Z * (IconData -> IconData -> IconData)) :=
  [ (NIF_MESSAGE, copy_message); (NIF_ICON, copy_icon); (NIF_TIP, copy_tip);
    (NIF_STATE, copy_state); (NIF_GUID, copy_guid); (NIF_INFO, copy_info) ].

(** [update_icon_data] on a record that exists. *)
Definition update_fields {W : WinTypes} (old new : IconData) : IconData :=
  let d := copy_direct new old in
  let d := if (0 <? uVersion new) && (uVersion new <=? 4)
           then copy_version new d else d in
  fold_left
    (fun acc fa => if has_flag (uFlags new) (fst fa) then snd fa new acc else acc)
    flag_dependent_attrs d.

(** [update_icon_data]: nothing happens when [old_data] is [None]. *)
Definition update_icon_data {W : WinTypes} (old_data : option IconData)
    (new_data : IconData) : option IconData :=
  match old_data with
  | None => None
  | Some old => Some (update_fields old new_data)
  end.

(** ** The reconciler *)

(** [data.guid in self.filtered_guids]. *)
Definition is_filtered (filtered : gset N) (g : option UUID) : bool :=
  match g with
  | Some u => bool_decide (u ∈ filtered)
  | None => false
  end.

(** The saved placement that [on_icon_modified] reads for a new icon:
    [current_state.get(id, current_state.get(exe_path, IconState(-1, False)))]. *)
Definition saved_data (cs : gmap string IconState.t) (d : IconData) : IconState.t :=
  let id := match guid d with
            | Some g => uuid_str g
            | None => exe_path d
            end in
  default (default (IconState.mk false (-1)) (cs !! exe_path d)) (cs !! id).

(** Mutation of the widget object [id], seen through every reference. *)
Definition modify_widget (id : nat) (f : IconWidget.t -> IconWidget.t)
    (l : list IconWidget.t) : list IconWidget.t :=
  (fun w => if (IconWidget.obj_id w =? id)%nat then f w else w) <$> l.

(** What [on_icon_modified] does to the icon once it is found or created. *)
Definition refresh_widget {W : WinTypes} (new_data : IconData) (w : IconWidget.t)
  : IconWidget.t :=
  IconWidget.mk (IconWidget.obj_id w)
    (update_icon_data (IconWidget.data w) new_data)
    (IconWidget.is_pinned w)
    (has_flag (uFlags new_data) NIF_STATE && (dwState new_data =? 1)).

Definition on_icon_modified {W : WinTypes} (s : Systray) (d : IconData) : Systray :=
  if is_filtered (filtered_guids s) (guid d) then s
  else
    match find_icon (icons s) (guid d) (hWnd d) (uID d) with
    | Some icon =>
        mkSystray (filtered_guids s)
          (modify_widget (IconWidget.obj_id icon) (refresh_widget d) (icons s))
          (current_state s) (unpinned_layout s) (pinned_layout s) (next_obj s)
    | None =>
        let saved := saved_data (current_state s) d in
        let id := next_obj s in
        let icon := IconWidget.mk id (Some IconData_new) (IconState.is_pinned saved) false in
        mkSystray (filtered_guids s)
          (modify_widget id (refresh_widget d) (icons s ++ [icon]))
          (current_state s)
          (if IconState.is_pinned saved then unpinned_layout s
           else unpinned_layout s ++ [id])
          (if IconState.is_pinned saved then pinned_layout s ++ [id]
           else pinned_layout s)
          (S id)
    end.

(** [self.icons.remove(icon)]: the first occurrence of the object goes. *)
Fixpoint remove_widget (id : nat) (l : list IconWidget.t) : list IconWidget.t :=
  match l with
  | [] => []
  | w :: rest =>
      if (IconWidget.obj_id w =? id)%nat then rest else w :: remove_widget id rest
  end.

(** A destroyed widget leaves the layout that holds it. *)
Definition layout_remove (id : nat) (layout : list nat) : list nat :=
  filter (fun x => x ≠ id) layout.

(** [on_icon_deleted]: no filter test here; [deleteLater] is taken to be
    carried out at once. *)
Definition on_icon_deleted (s : Systray) (d : IconData) : Systray :=
  match find_icon (icons s) (guid d) (hWnd d) (uID d) with
  | Some icon =>
      let id := IconWidget.obj_id icon in
      mkSystray (filtered_guids s) (remove_widget id (icons s)) (current_state s)
        (layout_remove id (unpinned_layout s)) (layout_remove id (pinned_layout s))
        (next_obj s)
  | None => s
  end.

(** A widget survives [check_icons] unless it has data and its window is
    gone; [IsWindow] is the answer of the platform at the time of the sweep. *)
Definition still_valid (IsWindow : Z -> bool) (w : IconWidget.t) : bool :=
  match IconWidget.data w with
  | Some d => IsWindow (hWnd d)
  | None => true
  end.

Definition check_icons (IsWindow : Z -> bool) (s : Systray) : Systray :=
  let dead := filter (fun w => still_valid IsWindow w = false) (icons s) in
  let dead_ids := IconWidget.obj_id <$> dead in
  mkSystray (filtered_guids s)
    (filter (fun w => still_valid IsWindow w = true) (icons s))
    (current_state s)
    (filter (fun x => x ∉ dead_ids) (unpinned_layout s))
    (filter (fun x => x ∉ dead_ids) (pinned_layout s))
    (next_obj s).

(** ** The sorter *)

(** The object behind a reference. *)
Fixpoint widget_of (l : list IconWidget.t) (id : nat) : option IconWidget.t :=
  match l with
  | [] => None
  | w :: rest => if (IconWidget.obj_id w =? id)%nat then Some w else widget_of rest id
  end.

(** [get_widgets_from_layout]: the icon widgets of a layout, in order; a
    reference that is not to a widget of the registry is passed over, as
    the [isinstance] test passes over what is not an [IconWidget]. *)
Definition get_widgets_from_layout (l : list IconWidget.t) (layout : list nat)
  : list IconWidget.t :=
  omap (widget_of l) layout.

(** The local function [get_sort_index] of [sort_icons]. *)
Definition get_sort_index (cs : gmap string IconState.t) (widget : IconWidget.t) : Z :=
  match IconWidget.data widget with
  | None => 9999
  | Some d =>
      let index := match guid d with
                   | Some g => cs !! uuid_str g
                   | None => cs !! exe_path d
                   end in
      match index with
      | Some st => IconState.index st
      | None => 9999
      end
  end.

(** [list.sort(key=...)]: a stable sort by ascending key, here by insertion
    from the right; an element goes in front of the first one whose key is
    not smaller, so equal keys keep their order. *)
Fixpoint insert_by {A} (key : A -> Z) (x : A) (l : list A) : list A :=
  match l with
  | [] => [x]
  | y :: rest => if key x <=? key y then x :: y :: rest else y :: insert_by key x rest
  end.

Fixpoint sort_by {A} (key : A -> Z) (l : list A) : list A :=
  match l with
  | [] => []
  | x :: rest => insert_by key x (sort_by key rest)
  end.

(** [list.index(w)] on a list of widgets: the first position of the object
    (the length of the list stands for the [ValueError] that the callers
    below never meet). *)
Fixpoint list_index (id : nat) (l : list IconWidget.t) : nat :=
  match l with
  | [] => O
  | w :: rest => if (IconWidget.obj_id w =? id)%nat then O else S (list_index id rest)
  end.

(** [QBoxLayout.insertWidget(i, w)]: a widget that is already laid out is
    taken out first, then put at position [i]. *)
Definition insertWidget (i : nat) (id : nat) (layout : list nat) : list nat :=
  let rest := layout_remove id layout in
  take i rest ++ id :: drop i rest.

(** The loop [for w in sorted: layout.insertWidget(sorted.index(w), w)]. *)
Definition reinsert (sorted : list IconWidget.t) (layout : list nat) : list nat :=
  fold_left
    (fun lay w => insertWidget (list_index (IconWidget.obj_id w) sorted)
                    (IconWidget.obj_id w) lay)
    sorted layout.

Definition sorted_layout (s : Systray) (layout : list nat) : list nat :=
  reinsert
    (sort_by (get_sort_index (current_state s))
       (get_widgets_from_layout (icons s) layout))
    layout.

(** ** State snapshot *)

(** [QLayout.indexOf]: the position of the widget, -1 when it is not there. *)
Fixpoint indexOf (id : nat) (layout : list nat) : Z :=
  match layout with
  | [] => -1
  | x :: rest =>
      if (x =? id)%nat then 0
      else let i := indexOf id rest in if i =? -1 then -1 else i + 1
  end.

(** Python's [a or b] on strings. *)
Definition str_or (a b : string) : string :=
  if String.eqb a "" then b else a.

(** The key [uuid or w.data.exe_path] of [update_current_state]. *)
Definition snapshot_key (d : IconData) : string :=
  match guid d with
  | Some g => str_or (uuid_str g) (exe_path d)
  | None => exe_path d
  end.

Definition layout_index (s : Systray) (id : nat) : Z :=
  let index := indexOf id (unpinned_layout s) in
  if index =? -1 then indexOf id (pinned_layout s) else index.

(** One turn of the loop of [update_current_state]. *)
Definition snapshot_step (s : Systray) (widgets_state : gmap string IconState.t)
    (w : IconWidget.t) : gmap string IconState.t :=
  match IconWidget.data w with
  | None => widgets_state
  | Some d =>
      if IconWidget.isHidden w then widgets_state
      else <[snapshot_key d :=
               IconState.mk (IconWidget.is_pinned w) (layout_index s (IconWidget.obj_id w))]>
             widgets_state
  end.

Definition widgets_state (s : Systray) : gmap string IconState.t :=
  fold_left (snapshot_step s) (icons s) ∅.

(** [update_current_state]: [current_state |= widgets_state]. *)
Definition update_current_state (s : Systray) : Systray :=
  mkSystray (filtered_guids s) (icons s)
    (widgets_state s ∪ current_state s)
    (unpinned_layout s) (pinned_layout s) (next_obj s).

Definition sort_icons (s : Systray) : Systray :=
  update_current_state
    (mkSystray (filtered_guids s) (icons s) (current_state s)
       (sorted_layout s (unpinned_layout s))
       (sorted_layout s (pinned_layout s))
       (next_obj s)).

(** ** Persistence *)

(** Modelled from the spec: [IconState.from_dict] and the attribute
    dictionary of an [IconState] belong to systray_widget.py, which is not
    among the sources; the persisted schema is
    [{ key: { "is_pinned": bool, "index": int } }], so an entry of the file
    is the pair of these two fields and both conversions carry them over. *)
Record IconStateDict := mkDict { d_is_pinned : bool; d_index : Z }.

Definition to_dict (v : IconState.t) : IconStateDict :=
  mkDict (IconState.is_pinned v) (IconState.index v).

Definition from_dict (v : IconStateDict) : IconState.t :=
  IconState.mk (d_is_pinned v) (d_index v).

(** What opening and decoding the state file of this monitor gives. *)
Inductive StateFile :=
  | FileNotFound
  | JSONDecodeError
  | JsonObject (entries : gmap string IconStateDict).

(** The [saved_state] that [save_state] starts from. *)
Definition read_saved_state (f : StateFile) : gmap string IconStateDict :=
  match f with
  | JsonObject m => m
  | FileNotFound | JSONDecodeError => ∅
  end.

(** [save_state]: snapshot, read, merge ([saved_state | current]), write.
    The result is the widget and the new content of the file. *)
Definition save_state (s : Systray) (f : StateFile) : Systray * StateFile :=
  let s' := update_current_state s in
  let new_state := (to_dict <$> current_state s') ∪ read_saved_state f in
  (s', JsonObject new_state).

(** [load_state]: [current_state] is rebuilt from the file, empty when the
    file is missing or does not decode. *)
Definition load_state (s : Systray) (f : StateFile) : Systray :=
  mkSystray (filtered_guids s) (icons s)
    (from_dict <$> read_saved_state f)
    (unpinned_layout s) (pinned_layout s) (next_obj s).

(** ** The widget over time *)

(** [__init__]: the filter set follows the two show flags. *)
Definition init_filtered_guids (show_battery show_volume : bool) : gset N :=
  (if show_battery then ∅ else {[ BATTERY_ICON_GUID ]})
  ∪ (if show_volume then ∅ else {[ VOLUME_ICON_GUID ]}).

Definition SystrayWidget_init (show_battery show_volume : bool) : Systray :=
  mkSystray (init_filtered_guids show_battery show_volume) [] ∅ [] [] O.

(** What reaches the registry: the two signals of the tray monitor and the
    timeout of [icon_check_timer]. *)
Inductive Event :=
  | IconModified (d : IconData)
  | IconDeleted (d : IconData)
  | CheckIcons (IsWindow : Z -> bool).

Definition handle {W : WinTypes} (s : Systray) (e : Event) : Systray :=
  match e with
  | IconModified d => on_icon_modified s d
  | IconDeleted d => on_icon_deleted s d
  | CheckIcons IsWindow => check_icons IsWindow s
  end.

Definition run {W : WinTypes} (s : Systray) (es : list Event) : Systray :=
  fold_left handle es s.

(** ** Vocabulary of the properties *)

(** A run of modify notifications on one record. *)
Definition apply_modifications {W : WinTypes} (old : IconData) (ns : list IconData)
  : IconData :=
  fold_left update_fields ns old.

(** The value of [field] in the last notification of [ns] that satisfies
    [carries]; [prior] when there is none. *)
Definition last_carrying {A} (carries : IconData -> bool) (field : IconData -> A)
    (prior : A) (ns : list IconData) : A :=
  match last (filter (fun n => carries n = true) ns) with
  | Some n => field n
  | None => prior
  end.

(** The value of [field] in the last notification of [ns]. *)
Definition last_value {A} (field : IconData -> A) (prior : A) (ns : list IconData) : A :=
  match last ns with
  | Some n => field n
  | None => prior
  end.

Definition carries {W : WinTypes} (flag : Z) (n : IconData) : bool :=
  has_flag (uFlags n) flag.

Definition version_in_range (n : IconData) : bool :=
  (1 <=? uVersion n) && (uVersion n <=? 4).

(** The GUID of a registry entry, if it has data and a GUID. *)
Definition widget_guid (w : IconWidget.t) : option UUID :=
  IconWidget.data w ≫= guid.

(** The window handle and resource id of a registry entry. *)
Definition widget_pair (w : IconWidget.t) : option (Z * Z) :=
  (fun d => (hWnd d, uID d)) <$> IconWidget.data w.

(** [w] is the first element of [l] that satisfies [P]. *)
Definition first_such {A} (P : A -> Prop) (l : list A) (w : A) : Prop :=
  exists l1 l2, l = l1 ++ w :: l2 /\ P w /\ Forall (fun x => ~ P x) l1.

(** The placement that the snapshot records for a widget. *)
Definition placement (s : Systray) (w : IconWidget.t) : IconState.t :=
  IconState.mk (IconWidget.is_pinned w) (layout_index s (IconWidget.obj_id w)).

(** [w] writes the key [k] in the loop of [update_current_state]: it has
    data, is not hidden, and [k] is its snapshot key. *)
Definition writes_key (k : string) (w : IconWidget.t) : bool :=
  match IconWidget.data w with
  | Some d => negb (IconWidget.isHidden w) && bool_decide (snapshot_key d = k)
  | None => false
  end.

(** [w] is a visible widget without GUID whose executable path is [p]. *)
Definition path_only (p : string) (w : IconWidget.t) : bool :=
  match IconWidget.data w with
  | Some d =>
      negb (IconWidget.isHidden w)
      && bool_decide (guid d = None) && bool_decide (exe_path d = p)
  | None => false
  end.

(** The pin flag of the saved entry of a notification, in the words of the
    specification: the entry under the GUID string, or under the path when
    there is no GUID; else the entry under the path; else unpinned. *)
Definition saved_pin_flag (cs : gmap string IconState.t) (d : IconData) : bool :=
  let key := match guid d with
             | Some g => uuid_str g
             | None => exe_path d
             end in
  match cs !! key with
  | Some st => IconState.is_pinned st
  | None =>
      match cs !! exe_path d with
      | Some st => IconState.is_pinned st
      | None => false
      end
  end.

(** Object identities are allocated in order: every widget of the registry
    and every reference held by a layout is older than [next_obj], and no
    object is registered twice. *)
Definition wf (s : Systray) : Prop :=
  Forall (fun w => (IconWidget.obj_id w < next_obj s)%nat) (icons s)
  /\ NoDup (IconWidget.obj_id <$> icons s)
  /\ Forall (fun i => (i < next_obj s)%nat) (unpinned_layout s ++ pinned_layout s).

(** The pair (hwnd, uid) of a registry entry that has no GUID. *)
Definition legacy_pair (w : IconWidget.t) : option (Z * Z) :=
  match IconWidget.data w with
  | Some d =>
      match guid d with
      | None => Some (hWnd d, uID d)
      | Some _ => None
      end
  | None => None
  end.

(** No two registry entries have the same GUID. *)
Definition guid_unique (l : list IconWidget.t) : Prop :=
  NoDup (omap widget_guid l).

(** No two registry entries without GUID have the same (hwnd, uid). *)
Definition pair_unique (l : list IconWidget.t) : Prop :=
  NoDup (omap legacy_pair l).

(** A notification that sets the GUID presence flag carries a GUID. *)
Definition guid_flag_sound {W : WinTypes} (e : Event) : Prop :=
  match e with
  | IconModified d => carries NIF_GUID d = true -> guid d <> None
  | IconDeleted _ | CheckIcons _ => True
  end.

(** A widget with nothing registered and nothing laid out. *)
Definition empty_registry (filtered : gset N) (cs : gmap string IconState.t) : Systray :=
  mkSystray filtered [] cs [] [] O.

(** The list of the elements of an option. *)
Definition opt_list {A} (o : option A) : list A :=
  match o with
  | Some x => [x]
  | None => []
  end.

(** Ascending order of the sort keys. *)
Definition ascending {A} (key : A -> Z) (l : list A) : Prop :=
  StronglySorted (fun a b => key a <= key b) l.

(** [after] is [before] sorted by [key] in a stable way: the same elements,
    keys ascending, and elements of equal key in their former order. *)
Definition stable_sorted {A} (key : A -> Z) (before after : list A) : Prop :=
  after ≡ₚ before
  /\ ascending key after
  /\ forall k, filter (fun x => key x = k) after = filter (fun x => key x = k) before.

(** Every reference of the layout is to a widget of the registry. *)
Definition resolves (l : list IconWidget.t) (layout : list nat) : Prop :=
  Forall (fun id => is_Some (widget_of l id)) layout.

(** The sort key in the words of the specification: the saved index under
    the GUID key first, under the path key when that lookup fails, and the
    sentinel 9999 when neither resolves. *)
Definition spec_sort_index (cs : gmap string IconState.t) (widget : IconWidget.t) : Z :=
  match IconWidget.data widget with
  | None => 9999
  | Some d =>
      let by_guid := guid d ≫= (fun g => cs !! uuid_str g) in
      match by_guid with
      | Some st => IconState.index st
      | None =>
          match cs !! exe_path d with
          | Some st => IconState.index st
          | None => 9999
          end
      end
  end.

(** The key that a widget writes in the snapshot, if it writes one. *)
Definition visible_key (w : IconWidget.t) : option string :=
  match IconWidget.data w with
  | Some d => if IconWidget.isHidden w then None else Some (snapshot_key d)
  | None => None
  end.

(** Every reference of the layout is to a widget of the registry that has
    data and is not hidden. *)
Definition all_visible (l : list IconWidget.t) (layout : list nat) : Prop :=
  Forall (fun id => exists w, widget_of l id = Some w /\ is_Some (visible_key w)) layout.

(** ** Concrete notifications and states used in the examples *)

(** A notification: GUID, window handle, resource id, flags, executable path. *)
Definition notification (g : option UUID) (h u flags : Z) (path : string) : IconData :=
  mkIconData 0 h u flags 0 0 0 "" 0 0 g 0 "" "" 0 None "" path.

(** A visible or hidden widget with the given identity fields. *)
Definition widget (id : nat) (g : option UUID) (h u : Z) (path : string)
    (pinned hidden : bool) : IconWidget.t :=
  IconWidget.mk id (Some (notification g h u 0 path)) pinned hidden.

(** A configuration with the battery icon switched off, whose saved state
    pins the battery icon. *)
Definition battery_off_state : Systray :=
  mkSystray (init_filtered_guids false true) []
    {[ uuid_str BATTERY_ICON_GUID := IconState.mk true 0 ]} [] [] O.

(** Two visible widgets of one executable, neither with a GUID: the first
    unpinned, the second pinned. *)
Definition twin_state : Systray :=
  mkSystray ∅
    [ widget 0 None 100 1 "C:\app.exe" false false;
      widget 1 None 100 2 "C:\app.exe" true false ]
    ∅ [0%nat] [1%nat] 2%nat.

(** The same twins, unpinned, under a path that reads like a GUID, and a
    pinned third widget whose GUID has that very string. *)
Definition guid_like_path : string := "00000000-0000-0000-0000-000000000007".

Definition twin_and_guid_state : Systray :=
  mkSystray ∅
    [ widget 0 None 100 1 guid_like_path false false;
      widget 1 None 100 2 guid_like_path false false;
      widget 2 (Some 7%N) 200 1 "C:\other.exe" true false ]
    ∅ [0%nat; 1%nat] [2%nat] 3%nat.

(** A widget with a GUID whose saved entry is under its path only, in front
    of a widget without GUID, both unpinned. *)
Definition path_saved_state : Systray :=
  mkSystray ∅
    [ widget 0 (Some 7%N) 100 1 "C:\a.exe" false false;
      widget 1 None 200 1 "C:\b.exe" false false ]
    {[ "C:\a.exe"%string := IconState.mk false 0;
       "C:\b.exe"%string := IconState.mk false 1 ]}
    [0%nat; 1%nat] [] 2%nat.

(** A hidden widget in front of a visible one, nothing saved. *)
Definition hidden_first_state : Systray :=
  mkSystray ∅
    [ widget 0 None 100 1 "C:\a.exe" false true;
      widget 1 None 200 1 "C:\b.exe" false false ]
    ∅ [0%nat; 1%nat] [] 2%nat.

(** Three visible widgets with saved indices out of order, one pinned. *)
Definition unsorted_state : Systray :=
  mkSystray ∅
    [ widget 0 None 100 1 "C:\a.exe" false false;
      widget 1 (Some 7%N) 200 1 "C:\b.exe" false false;
      widget 2 None 300 1 "C:\c.exe" true false ]
    {[ "C:\a.exe"%string := IconState.mk false 5;
       uuid_str 7%N := IconState.mk false 2 ]}
    [0%nat; 1%nat] [2%nat] 3%nat.

(** A run that ends with a notification whose GUID presence flag is set
    and whose GUID is missing: an icon with GUID 7 appears at (2, 2), an
    icon without GUID at (1, 1), the first moves to (1, 1), and the last
    notification, for (1, 1) without GUID, resolves to the first icon and
    clears its GUID. *)
Definition guid_cleared_run : list Event :=
  [ IconModified (notification (Some 7%N) 2 2 0x20 "C:\b.exe");
    IconModified (notification None 1 1 0 "C:\a.exe");
    IconModified (notification (Some 7%N) 1 1 0x20 "C:\b.exe");
    IconModified (notification None 1 1 0x20 "C:\a.exe") ].


(** ** Group visibility *)

(** The pinned container: whether it is visible, and its "forceshow"
    style property. *)
Record PinnedWidget := mkPinnedWidget {
  isVisible : bool;
  forceshow : bool
}.

(** [is_layout_empty]: true unless some item of the layout is a widget
    that is not hidden. *)
Fixpoint is_layout_empty (l : list IconWidget.t) (layout : list nat) : bool :=
  match layout with
  | [] => true
  | id :: rest =>
      match widget_of l id with
      | Some w => if negb (IconWidget.isHidden w) then false else is_layout_empty l rest
      | None => is_layout_empty l rest
      end
  end.

(** [update_pinned_widget_visibility]; the style of a widget always
    exists, so the two branches depend on the flags alone. *)
Definition update_pinned_widget_visibility (force_show : bool) (s : Systray)
    (pw : PinnedWidget) : PinnedWidget :=
  let is_empty := is_layout_empty (icons s) (pinned_layout s) in
  mkPinnedWidget (negb is_empty || force_show)
    (if force_show && is_empty then true
     else if forceshow pw && negb is_empty then false
     else forceshow pw).



(** ** Pin toggle and drag move *)

(** [icon.is_pinned = b; icon.show()]. *)
Definition pin_and_show (b : bool) (w : IconWidget.t) : IconWidget.t :=
  IconWidget.mk (IconWidget.obj_id w) (IconWidget.data w) b false.


(** [on_icon_pinned_changed] up to the save: the parent of the icon is the
    unpinned container exactly when the unpinned layout holds it;
    [addWidget] takes the widget out of the layout of its parent and
    appends it to the other one. *)
Definition toggle_pinned (id : nat) (s : Systray) : Systray :=
  if bool_decide (id ∈ unpinned_layout s) then
    mkSystray (filtered_guids s) (modify_widget id (pin_and_show true) (icons s))
      (current_state s)
      (layout_remove id (unpinned_layout s)) (pinned_layout s ++ [id]) (next_obj s)
  else
    mkSystray (filtered_guids s) (modify_widget id (pin_and_show false) (icons s))
      (current_state s)
      (unpinned_layout s ++ [id]) (layout_remove id (pinned_layout s)) (next_obj s).

(** [on_icon_pinned_changed]: toggle, then [save_state]; the last line of
    the source updates the pinned container, which is a [PinnedWidget] of
    its own ([update_pinned_widget_visibility]). *)
Definition on_icon_pinned_changed (id : nat) (s : Systray) (f : StateFile)
  : Systray * StateFile :=
  save_state (toggle_pinned id s) f.





(** Each widget of the registry is in exactly one group, the one its pin
    flag names, and the groups hold nothing else. *)
Definition groups_mirror_pins (s : Systray) : Prop :=
  NoDup (unpinned_layout s ++ pinned_layout s)
  /\ (forall id, id ∈ unpinned_layout s ++ pinned_layout s
                 <-> id ∈ IconWidget.obj_id <$> icons s)
  /\ Forall (fun w => IconWidget.is_pinned w = true
                      <-> IconWidget.obj_id w ∈ pinned_layout s) (icons s).



(** ** The media widget: [MediaWidget._format_max_field_size] *)

(** [text[:k]]: a negative [k] counts from the end. *)
Definition slice_to {A} (k : Z) (text : list A) : list A :=
  if k <? 0 then take (Z.to_nat (Z.max 0 (Z.of_nat (length text) + k))) text
  else take (Z.to_nat k) text.

(** The two bounds of [max_field_size]. *)
Record MaxFieldSize := mkMaxFieldSize { mfs_label : Z; mfs_label_alt : Z }.

(** [_format_max_field_size]: a text is a list of characters, [dot] is
    the full stop. *)
Definition format_max_field_size {A} (dot : A) (max_field_size : MaxFieldSize)
    (show_alt_label : bool) (text : list A) : list A :=
  let m := if show_alt_label then mfs_label_alt max_field_size
           else mfs_label max_field_size in
  if m <? Z.of_nat (length text) then slice_to (m - 3) text ++ [dot; dot; dot]
  else text.

(** The bound that [_format_max_field_size] reads. *)
Definition field_bound (max_field_size : MaxFieldSize) (show_alt_label : bool) : Z :=
  if show_alt_label then mfs_label_alt max_field_size else mfs_label max_field_size.

(** Three icons without GUID: two unpinned, the second of them hidden, and
    one pinned. *)
Definition sweep_state : Systray :=
  mkSystray ∅
    [ widget 0 None 100 1 "C:\a.exe" false false;
      widget 1 None 200 1 "C:\b.exe" true false;
      widget 2 None 300 1 "C:\c.exe" false true ]
    ∅ [0%nat; 2%nat] [1%nat] 3%nat.

(** A hidden widget whose placement was saved earlier, in front of a
    visible one. *)
Definition hidden_with_history : Systray :=
  mkSystray ∅
    [ widget 0 None 100 1 "C:\a.exe" false true;
      widget 1 None 200 1 "C:\b.exe" false false ]
    {[ "C:\a.exe"%string := IconState.mk false 4 ]}
    [0%nat; 1%nat] [] 2%nat.


(** * Properties *)

(** ** Identity resolution *)

Lemma find_by_guid_Some l g w :
  find_by_guid l g = Some w -> first_such (fun x => widget_guid x = Some g) l w.
Proof.
  induction l as [|icon rest IH]; simpl; [discriminate|].
  unfold first_such, widget_guid in *.
  destruct (IconWidget.data icon) as [d|] eqn:Hd.
  - destruct (guid d) as [g'|] eqn:Hg.
    + destruct (N.eqb_spec g' g) as [->|Hne].
      * intros [= <-]. exists [], rest. rewrite Hd. simpl. auto.
      * intros Hf. destruct (IH Hf) as (l1 & l2 & -> & Hw & Hall).
        exists (icon :: l1), l2. split; [done|]. split; [done|].
        constructor; [|done]. rewrite Hd. simpl. congruence.
    + intros Hf. destruct (IH Hf) as (l1 & l2 & -> & Hw & Hall).
      exists (icon :: l1), l2. split; [done|]. split; [done|].
      constructor; [|done]. rewrite Hd. simpl. congruence.
  - intros Hf. destruct (IH Hf) as (l1 & l2 & -> & Hw & Hall).
    exists (icon :: l1), l2. split; [done|]. split; [done|].
    constructor; [|done]. rewrite Hd. simpl. congruence.
Qed.

Lemma find_by_guid_None l g :
  find_by_guid l g = None -> Forall (fun x => widget_guid x <> Some g) l.
Proof.
  induction l as [|icon rest IH]; simpl; [constructor|].
  unfold widget_guid in *.
  destruct (IconWidget.data icon) as [d|] eqn:Hd; simpl.
  - destruct (guid d) as [g'|] eqn:Hg.
    + destruct (N.eqb_spec g' g) as [->|Hne]; [discriminate|].
      intros Hf. constructor; [|auto]. rewrite Hd. simpl. congruence.
    + intros Hf. constructor; [|auto]. rewrite Hd. simpl. congruence.
  - intros Hf. constructor; [|auto]. rewrite Hd. simpl. congruence.
Qed.

Lemma find_by_hwnd_Some l h u w :
  find_by_hwnd l h u = Some w -> first_such (fun x => widget_pair x = Some (h, u)) l w.
Proof.
  induction l as [|icon rest IH]; simpl; [discriminate|].
  unfold first_such, widget_pair in *.
  destruct (IconWidget.data icon) as [d|] eqn:Hd.
  - destruct (Z.eqb_spec (hWnd d) h) as [Hh|Hh], (Z.eqb_spec (uID d) u) as [Hu|Hu]; simpl.
    1: { intros [= <-]. exists [], rest. rewrite Hd. simpl. subst. auto. }
    all: intros Hf; destruct (IH Hf) as (l1 & l2 & -> & Hw & Hall);
      exists (icon :: l1), l2; split; [done|]; split; [done|];
      constructor; [|done]; rewrite Hd; simpl; congruence.
  - intros Hf. destruct (IH Hf) as (l1 & l2 & -> & Hw & Hall).
    exists (icon :: l1), l2. split; [done|]. split; [done|].
    constructor; [|done]. rewrite Hd. simpl. congruence.
Qed.

Lemma find_by_hwnd_None l h u :
  find_by_hwnd l h u = None -> Forall (fun x => widget_pair x <> Some (h, u)) l.
Proof.
  induction l as [|icon rest IH]; simpl; [constructor|].
  unfold widget_pair in *.
  destruct (IconWidget.data icon) as [d|] eqn:Hd; simpl.
  - destruct (Z.eqb_spec (hWnd d) h) as [Hh|Hh], (Z.eqb_spec (uID d) u) as [Hu|Hu]; simpl.
    1: discriminate.
    all: intros Hf; constructor; [|auto]; rewrite Hd; simpl; congruence.
  - intros Hf. constructor; [|auto]. rewrite Hd. simpl. congruence.
Qed.

(** The outcome of [find_icon], case by case. *)
Lemma find_icon_cases (l : list IconWidget.t) (uuid : option UUID) (hwnd uid : Z) :
  match find_icon l uuid hwnd uid with
  | Some w =>
      (exists g, uuid = Some g /\ first_such (fun x => widget_guid x = Some g) l w)
      \/ ((forall g, uuid = Some g -> Forall (fun x => widget_guid x <> Some g) l)
          /\ first_such (fun x => widget_pair x = Some (hwnd, uid)) l w)
  | None =>
      (forall g, uuid = Some g -> Forall (fun x => widget_guid x <> Some g) l)
      /\ Forall (fun x => widget_pair x <> Some (hwnd, uid)) l
  end.
Proof.
  unfold find_icon. destruct uuid as [g|].
  - destruct (find_by_guid l g) as [w|] eqn:Hg.
    + left. exists g. split; [done|]. by apply find_by_guid_Some.
    + apply find_by_guid_None in Hg.
      destruct (find_by_hwnd l hwnd uid) as [w|] eqn:Hh.
      * right. split; [by intros ? [= <-]|]. by apply find_by_hwnd_Some.
      * split; [by intros ? [= <-]|]. by apply find_by_hwnd_None.
  - destruct (find_by_hwnd l hwnd uid) as [w|] eqn:Hh.
    + right. split; [done|]. by apply find_by_hwnd_Some.
    + split; [done|]. by apply find_by_hwnd_None.
Qed.

(** C1 (as the code has it): a notification with a GUID resolves to the
    first live icon with that GUID, whatever its hwnd and uid; when no live
    icon has that GUID, or the notification has no GUID, it resolves to the
    first live icon with exactly the pair (hwnd, uid); the result is none
    exactly when neither rule finds an icon. *)
Theorem find_icon_resolution (l : list IconWidget.t) (uuid : option UUID) (hwnd uid : Z) :
  match find_icon l uuid hwnd uid with
  | Some w =>
      (exists g, uuid = Some g /\ first_such (fun x => widget_guid x = Some g) l w)
      \/ ((forall g, uuid = Some g -> Forall (fun x => widget_guid x <> Some g) l)
          /\ first_such (fun x => widget_pair x = Some (hwnd, uid)) l w)
  | None =>
      (forall g, uuid = Some g -> Forall (fun x => widget_guid x <> Some g) l)
      /\ Forall (fun x => widget_pair x <> Some (hwnd, uid)) l
  end
  /\ (forall g hwnd' uid',
        uuid = Some g -> Exists (fun x => widget_guid x = Some g) l ->
        find_icon l uuid hwnd uid = find_icon l uuid hwnd' uid').
Proof.
  split; [apply find_icon_cases|].
  intros g hwnd' uid' -> Hex. unfold find_icon.
  destruct (find_by_guid l g) as [w|] eqn:Hg; [done|].
  apply find_by_guid_None in Hg. exfalso.
  apply Exists_exists in Hex as (x & Hx & Hxg).
  rewrite Forall_forall in Hg. by apply (Hg x).
Qed.

(** C1 fails as stated: the registry holds one icon without a GUID, at
    (hwnd, uid) = (100, 1); a notification that carries GUID 7 and the same
    pair resolves to that icon, which the pair alone matched. *)
Lemma find_icon_guid_falls_through :
  let legacy :=
    IconWidget.mk 0 (Some (mkIconData 0 100 1 0 0 0 0 "" 0 0 None 0 "" "" 0 None "" ""))
      false false in
  find_icon [legacy] (Some 7%N) 100 1 = Some legacy
  /\ widget_guid legacy = None
  /\ ~ (forall l g h u w, find_icon l (Some g) h u = Some w -> widget_guid w = Some g).
Proof.
  split; [reflexivity|]. split; [reflexivity|].
  intros Hclaim.
  specialize (Hclaim
    [IconWidget.mk 0 (Some (mkIconData 0 100 1 0 0 0 0 "" 0 0 None 0 "" "" 0 None "" ""))
       false false] 7%N 100 1 _ eq_refl).
  discriminate Hclaim.
Qed.

(** ** Field gating of modify notifications *)

Section FieldGating.
Context {W : WinTypes}.

(** Every attribute after one [update_icon_data]: either the incoming
    value or the old one, by the rule of its group. *)
Ltac one_update :=
  intros; unfold update_fields, flag_dependent_attrs, carries, version_in_range;
  cbn [fold_left fst snd];
  repeat match goal with
         | |- context [has_flag ?a ?b] => destruct (has_flag a b)
         end;
  repeat match goal with
         | |- context [Z.ltb ?a ?b] => destruct (Z.ltb_spec a b)
         | |- context [Z.leb ?a ?b] => destruct (Z.leb_spec a b)
         end;
  cbn; try reflexivity; try lia.

Lemma update_message_type old new :
  message_type (update_fields old new) = message_type new.
Proof. one_update. Qed.
Lemma update_hWnd old new : hWnd (update_fields old new) = hWnd new.
Proof. one_update. Qed.
Lemma update_uID old new : uID (update_fields old new) = uID new.
Proof. one_update. Qed.
Lemma update_uFlags old new : uFlags (update_fields old new) = uFlags new.
Proof. one_update. Qed.
Lemma update_icon_image old new : icon_image (update_fields old new) = icon_image new.
Proof. one_update. Qed.
Lemma update_exe old new : exe (update_fields old new) = exe new.
Proof. one_update. Qed.
Lemma update_exe_path old new : exe_path (update_fields old new) = exe_path new.
Proof. one_update. Qed.

Lemma update_uVersion old new :
  uVersion (update_fields old new)
  = if version_in_range new then uVersion new else uVersion old.
Proof. one_update. Qed.

Lemma update_uCallbackMessage old new :
  uCallbackMessage (update_fields old new)
  = if carries NIF_MESSAGE new then uCallbackMessage new else uCallbackMessage old.
Proof. one_update. Qed.
Lemma update_hIcon old new :
  hIcon (update_fields old new) = if carries NIF_ICON new then hIcon new else hIcon old.
Proof. one_update. Qed.
Lemma update_szTip old new :
  szTip (update_fields old new) = if carries NIF_TIP new then szTip new else szTip old.
Proof. one_update. Qed.
Lemma update_dwState old new :
  dwState (update_fields old new)
  = if carries NIF_STATE new then dwState new else dwState old.
Proof. one_update. Qed.
Lemma update_dwStateMask old new :
  dwStateMask (update_fields old new)
  = if carries NIF_STATE new then dwStateMask new else dwStateMask old.
Proof. one_update. Qed.
Lemma update_guid old new :
  guid (update_fields old new) = if carries NIF_GUID new then guid new else guid old.
Proof. one_update. Qed.
Lemma update_dwInfoFlags old new :
  dwInfoFlags (update_fields old new)
  = if carries NIF_INFO new then dwInfoFlags new else dwInfoFlags old.
Proof. one_update. Qed.
Lemma update_szInfoTitle old new :
  szInfoTitle (update_fields old new)
  = if carries NIF_INFO new then szInfoTitle new else szInfoTitle old.
Proof. one_update. Qed.
Lemma update_szInfo old new :
  szInfo (update_fields old new) = if carries NIF_INFO new then szInfo new else szInfo old.
Proof. one_update. Qed.
Lemma update_uTimeout old new :
  uTimeout (update_fields old new)
  = if carries NIF_INFO new then uTimeout new else uTimeout old.
Proof. one_update. Qed.

Lemma last_carrying_cons {A} (c : IconData -> bool) (field : IconData -> A) prior n ns :
  last_carrying c field prior (n :: ns)
  = last_carrying c field (if c n then field n else prior) ns.
Proof.
  unfold last_carrying. rewrite filter_cons.
  destruct (c n) eqn:Hc.
  - rewrite decide_True by done. rewrite last_cons.
    by destruct (last (filter _ ns)).
  - rewrite decide_False by congruence. done.
Qed.

(** A field that one update either overwrites or keeps ends, after a run
    of updates, with the value of the last notification that overwrote it. *)
Lemma gated_field_final {A} (field : IconData -> A) (c : IconData -> bool) :
  (forall old new,
      field (update_fields old new) = if c new then field new else field old) ->
  forall ns old,
    field (apply_modifications old ns) = last_carrying c field (field old) ns.
Proof.
  intros Hstep ns. induction ns as [|n ns IH]; intros old; [done|].
  rewrite last_carrying_cons. unfold apply_modifications in *. cbn [fold_left].
  rewrite IH, Hstep. done.
Qed.

Lemma direct_field_final {A} (field : IconData -> A) :
  (forall old new, field (update_fields old new) = field new) ->
  forall ns old, field (apply_modifications old ns) = last_value field (field old) ns.
Proof.
  intros Hstep ns old.
  rewrite (gated_field_final field (fun _ => true)) by (intros; by rewrite Hstep).
  unfold last_carrying, last_value.
  replace (filter (fun n : IconData => true = true) ns) with ns; [done|].
  induction ns as [|n ns IH]; [done|].
  rewrite filter_cons, decide_True by done. by f_equal.
Qed.

(** C3: after any run of modify notifications on one record, each direct
    field holds the value of the last notification; each flagged field
    holds the value of the last notification whose presence bit was set,
    or its prior value when there was none; the version holds the last
    version that was in the range 1..4, or is unchanged. *)
Theorem modify_sequence_fields (old : IconData) (ns : list IconData) :
  let final := apply_modifications old ns in
  message_type final = last_value message_type (message_type old) ns
  /\ hWnd final = last_value hWnd (hWnd old) ns
  /\ uID final = last_value uID (uID old) ns
  /\ uFlags final = last_value uFlags (uFlags old) ns
  /\ icon_image final = last_value icon_image (icon_image old) ns
  /\ exe final = last_value exe (exe old) ns
  /\ exe_path final = last_value exe_path (exe_path old) ns
  /\ uCallbackMessage final
     = last_carrying (carries NIF_MESSAGE) uCallbackMessage (uCallbackMessage old) ns
  /\ hIcon final = last_carrying (carries NIF_ICON) hIcon (hIcon old) ns
  /\ szTip final = last_carrying (carries NIF_TIP) szTip (szTip old) ns
  /\ dwState final = last_carrying (carries NIF_STATE) dwState (dwState old) ns
  /\ dwStateMask final
     = last_carrying (carries NIF_STATE) dwStateMask (dwStateMask old) ns
  /\ guid final = last_carrying (carries NIF_GUID) guid (guid old) ns
  /\ dwInfoFlags final = last_carrying (carries NIF_INFO) dwInfoFlags (dwInfoFlags old) ns
  /\ szInfoTitle final = last_carrying (carries NIF_INFO) szInfoTitle (szInfoTitle old) ns
  /\ szInfo final = last_carrying (carries NIF_INFO) szInfo (szInfo old) ns
  /\ uTimeout final = last_carrying (carries NIF_INFO) uTimeout (uTimeout old) ns
  /\ uVersion final = last_carrying version_in_range uVersion (uVersion old) ns.
Proof.
  cbv zeta.
  repeat split;
    first [ apply direct_field_final;
            first [ apply update_message_type | apply update_hWnd | apply update_uID
                  | apply update_uFlags | apply update_icon_image | apply update_exe
                  | apply update_exe_path ]
          | apply gated_field_final;
            first [ apply update_uCallbackMessage | apply update_hIcon
                  | apply update_szTip | apply update_dwState | apply update_dwStateMask
                  | apply update_guid | apply update_dwInfoFlags
                  | apply update_szInfoTitle | apply update_szInfo
                  | apply update_uTimeout | apply update_uVersion ] ].
Qed.
End FieldGating.

(** ** State snapshot and persistence *)

Lemma uuid_str_nonempty (u : UUID) : uuid_str u <> ""%string.
Proof. unfold uuid_str. cbn [hex_digits String.append]. discriminate. Qed.

Lemma snapshot_key_guid d g : guid d = Some g -> snapshot_key d = uuid_str g.
Proof.
  intros Hg. unfold snapshot_key, str_or. rewrite Hg.
  destruct (String.eqb_spec (uuid_str g) ""); [|done].
  by destruct (uuid_str_nonempty g).
Qed.

Lemma snapshot_key_path d : guid d = None -> snapshot_key d = exe_path d.
Proof. intros Hg. unfold snapshot_key. by rewrite Hg. Qed.

Lemma snapshot_step_lookup s m w k :
  snapshot_step s m w !! k
  = if writes_key k w then Some (placement s w) else m !! k.
Proof.
  unfold snapshot_step, writes_key.
  destruct (IconWidget.data w) as [d|]; [|done].
  destruct (IconWidget.isHidden w); [done|]. cbn [negb andb].
  case_bool_decide as Hk.
  - subst k. by rewrite lookup_insert_eq.
  - by rewrite lookup_insert_ne.
Qed.

(** Last writer wins: after the loop, a key holds the placement of the last
    widget of the registry that writes it. *)
Lemma snapshot_fold_lookup s l m k :
  fold_left (snapshot_step s) l m !! k
  = match last (filter (fun w => writes_key k w = true) l) with
    | Some w => Some (placement s w)
    | None => m !! k
    end.
Proof.
  revert m. induction l as [|w l IH]; intros m; [done|].
  cbn [fold_left]. rewrite IH, filter_cons, snapshot_step_lookup.
  destruct (writes_key k w) eqn:Hw.
  - rewrite decide_True by done. rewrite last_cons.
    by destruct (last (filter _ l)).
  - rewrite decide_False by congruence. done.
Qed.

Lemma widgets_state_lookup s k :
  widgets_state s !! k
  = placement s <$> last (filter (fun w => writes_key k w = true) (icons s)).
Proof.
  unfold widgets_state. rewrite snapshot_fold_lookup, lookup_empty.
  by destruct (last _).
Qed.

Lemma update_current_state_lookup s k :
  current_state (update_current_state s) !! k
  = match last (filter (fun w => writes_key k w = true) (icons s)) with
    | Some w => Some (placement s w)
    | None => current_state s !! k
    end.
Proof.
  cbn [update_current_state current_state]. rewrite lookup_union, widgets_state_lookup.
  destruct (last _) as [w|]; cbn.
  - by destruct (current_state s !! k).
  - by destruct (current_state s !! k).
Qed.

Lemma from_dict_to_dict v : from_dict (to_dict v) = v.
Proof. by destruct v. Qed.

Lemma save_state_written s f k :
  read_saved_state (snd (save_state s f)) !! k
  = match current_state (fst (save_state s f)) !! k with
    | Some st => Some (to_dict st)
    | None => read_saved_state f !! k
    end.
Proof.
  cbn [save_state fst snd read_saved_state].
  rewrite lookup_union, lookup_fmap.
  destruct (current_state (update_current_state s) !! k); cbn.
  - by destruct (read_saved_state f !! k).
  - by destruct (read_saved_state f !! k).
Qed.

(** C4: the file that [save_state] writes is the prior file overlaid with
    the in-memory snapshot: a key of the prior file that the snapshot does
    not have keeps its value, a key that the snapshot has gets the
    in-memory value, whatever the prior file held. *)
Theorem save_state_merges (s : Systray) (entries : gmap string IconStateDict) :
  exists written,
    snd (save_state s (JsonObject entries)) = JsonObject written
    /\ forall k,
         written !! k
         = match current_state (fst (save_state s (JsonObject entries))) !! k with
           | Some st => Some (to_dict st)
           | None => entries !! k
           end.
Proof.
  eexists. split; [reflexivity|]. intros k.
  apply (save_state_written s (JsonObject entries) k).
Qed.


(** ** Icons without GUID that share an executable path *)

Lemma path_only_writes p w : path_only p w = true -> writes_key p w = true.
Proof.
  unfold path_only, writes_key. destruct (IconWidget.data w) as [d|]; [|done].
  destruct (IconWidget.isHidden w); [done|]. cbn [negb andb].
  repeat case_bool_decide; try done.
  exfalso. rewrite snapshot_key_path in * by done. congruence.
Qed.

Lemma last_filter_sub {A} (P Q : A -> bool) (l : list A) :
  (forall x, x ∈ l -> P x = true -> Q x = true) ->
  (forall x, Q x = true -> P x = true) ->
  last (filter (fun x => P x = true) l) = last (filter (fun x => Q x = true) l).
Proof.
  intros HPQ HQP. f_equal.
  induction l as [|x l IH]; [done|].
  rewrite !filter_cons.
  rewrite IH by (intros y Hy; apply HPQ; by right).
  destruct (P x) eqn:HP.
  - rewrite (HPQ x) by (done || by left). done.
  - destruct (Q x) eqn:HQ; [|done].
    apply HQP in HQ. congruence.
Qed.

(** C10 (as the code has it): when two or more visible widgets without
    GUID share the executable path [p], and no visible widget with a GUID
    has [p] as the string of its GUID, the snapshot holds under [p] one
    entry, the placement of the last of them in registry order; the file
    that [save_state] writes and the map that [load_state] rebuilds hold
    that entry, so a widget of the group whose placement differs from it
    does not get its own placement back. *)
Theorem shared_path_key_collapse (s : Systray) (p : string)
    (group : list IconWidget.t) (w_last : IconWidget.t) (f : StateFile) :
  group = filter (fun w => path_only p w = true) (icons s) ->
  (2 <= length group)%nat ->
  last group = Some w_last ->
  (forall w, w ∈ icons s -> writes_key p w = true -> path_only p w = true) ->
  let s' := fst (save_state s f) in
  let f' := snd (save_state s f) in
  current_state (update_current_state s) !! p = Some (placement s w_last)
  /\ read_saved_state f' !! p = Some (to_dict (placement s w_last))
  /\ current_state (load_state s' f') !! p = Some (placement s w_last)
  /\ Forall (fun w => placement s w <> placement s w_last ->
                      current_state (load_state s' f') !! p <> Some (placement s w))
            group.
Proof.
  intros -> Hlen Hlast Hguid. cbv zeta.
  assert (Hsnap :
    current_state (update_current_state s) !! p = Some (placement s w_last)).
  { rewrite update_current_state_lookup.
    rewrite (last_filter_sub (writes_key p) (path_only p)), Hlast; [done| |].
    - exact Hguid.
    - intros x. apply path_only_writes. }
  assert (Hfile : read_saved_state (snd (save_state s f)) !! p
                  = Some (to_dict (placement s w_last))).
  { rewrite save_state_written. cbn [save_state fst]. by rewrite Hsnap. }
  assert (Hload :
    current_state (load_state (fst (save_state s f)) (snd (save_state s f))) !! p
    = Some (placement s w_last)).
  { cbn [load_state current_state]. rewrite lookup_fmap, Hfile. cbn.
    by rewrite from_dict_to_dict. }
  repeat split; try done.
  apply Forall_forall. intros w _ Hne. rewrite Hload. congruence.
Qed.

(** The twins of [twin_state]: the entry under their path is the placement
    of the second one, in the snapshot and after a save and a load. *)
Lemma shared_path_key_collapse_witness :
  current_state (update_current_state twin_state) !! "C:\app.exe"%string
  = Some (IconState.mk true 0)
  /\ current_state
       (load_state (fst (save_state twin_state FileNotFound))
          (snd (save_state twin_state FileNotFound))) !! "C:\app.exe"%string
     = Some (IconState.mk true 0).
Proof.
  pose proof (shared_path_key_collapse twin_state "C:\app.exe"
                (icons twin_state) (widget 1 None 100 2 "C:\app.exe" true false)
                FileNotFound) as Hc.
  cbv zeta in Hc.
  destruct Hc as (H1 & _ & H3 & _).
  - vm_compute. reflexivity.
  - simpl. lia.
  - reflexivity.
  - intros w Hw _. cbn [icons twin_state] in Hw.
    repeat (apply elem_of_cons in Hw as [-> | Hw]); try (vm_compute; reflexivity).
    by apply elem_of_nil in Hw.
  - split; [exact H1 | exact H3].
Defined.

(** C10 fails as stated: two visible widgets without GUID share a path
    that is also the string of the GUID of a third visible widget, iterated
    after them; the entry under the path holds the placement of that third
    widget (pinned, index 0), not of the last of the two (unpinned, index 1). *)
Lemma shared_path_key_guid_clash :
  filter (fun w => path_only guid_like_path w = true) (icons twin_and_guid_state)
  = [ widget 0 None 100 1 guid_like_path false false;
      widget 1 None 100 2 guid_like_path false false ]
  /\ placement twin_and_guid_state (widget 1 None 100 2 guid_like_path false false)
     = IconState.mk false 1
  /\ current_state (update_current_state twin_and_guid_state) !! guid_like_path
     = Some (IconState.mk true 0).
Proof.
  split; [vm_compute; reflexivity|]. split; [reflexivity|].
  rewrite update_current_state_lookup. vm_compute. reflexivity.
Qed.

(** ** The reconciler *)

Section Reconciler.
Context {W : WinTypes}.

Lemma on_icon_modified_filtered s d :
  is_filtered (filtered_guids s) (guid d) = true -> on_icon_modified s d = s.
Proof. intros Hf. unfold on_icon_modified. by rewrite Hf. Qed.

Lemma on_icon_modified_current_state s d :
  current_state (on_icon_modified s d) = current_state s.
Proof.
  unfold on_icon_modified.
  destruct (is_filtered _ _); [done|]. by destruct (find_icon _ _ _ _).
Qed.

Lemma handle_current_state s e : current_state (handle s e) = current_state s.
Proof.
  destruct e as [d|d|v]; cbn [handle].
  - apply on_icon_modified_current_state.
  - unfold on_icon_deleted. by destruct (find_icon _ _ _ _).
  - done.
Qed.

Lemma run_current_state s es : current_state (run s es) = current_state s.
Proof.
  revert s. induction es as [|e es IH]; intros s; [done|].
  unfold run in *. cbn [fold_left]. by rewrite IH, handle_current_state.
Qed.

Lemma handle_filtered_guids s e : filtered_guids (handle s e) = filtered_guids s.
Proof.
  destruct e as [d|d|v]; cbn [handle]; [|unfold on_icon_deleted|done].
  - unfold on_icon_modified.
    destruct (is_filtered _ _); [done|]. by destruct (find_icon _ _ _ _).
  - by destruct (find_icon _ _ _ _).
Qed.

Lemma saved_data_pin_flag cs d :
  IconState.is_pinned (saved_data cs d) = saved_pin_flag cs d.
Proof.
  unfold saved_data, saved_pin_flag.
  destruct (guid d) as [g|]; cbn.
  - destruct (cs !! uuid_str g); [done|]. by destruct (cs !! exe_path d).
  - by destruct (cs !! exe_path d).
Qed.

Lemma modify_widget_fresh id f l :
  Forall (fun w => (IconWidget.obj_id w < id)%nat) l -> modify_widget id f l = l.
Proof.
  unfold modify_widget. induction 1 as [|w l Hw _ IH]; [done|].
  cbn. rewrite IH. destruct (Nat.eqb_spec (IconWidget.obj_id w) id); [lia|done].
Qed.

Lemma modify_widget_app id f l1 l2 :
  modify_widget id f (l1 ++ l2) = modify_widget id f l1 ++ modify_widget id f l2.
Proof. apply fmap_app. Qed.

End Reconciler.

(** ** Invariants of the registry *)

Section RegistryInvariant.
Context {W : WinTypes}.

Lemma refresh_widget_obj_id d w :
  IconWidget.obj_id (refresh_widget d w) = IconWidget.obj_id w.
Proof. done. Qed.

Lemma modify_widget_ids id f l :
  (forall w, IconWidget.obj_id (f w) = IconWidget.obj_id w) ->
  IconWidget.obj_id <$> modify_widget id f l = IconWidget.obj_id <$> l.
Proof.
  intros Hf. unfold modify_widget. induction l as [|w l IH]; [done|].
  cbn. cbn in IH. rewrite IH. by destruct (_ =? _)%nat; rewrite ?Hf.
Qed.

Lemma modify_widget_other id f l :
  id ∉ IconWidget.obj_id <$> l -> modify_widget id f l = l.
Proof.
  unfold modify_widget. induction l as [|w l IH]; [done|].
  cbn. intros Hin. rewrite not_elem_of_cons in Hin. destruct Hin as [Hne Hin].
  cbn in IH. rewrite IH by done.
  destruct (Nat.eqb_spec (IconWidget.obj_id w) id); [congruence|done].
Qed.

(** With distinct identities, mutating an object changes one entry. *)
Lemma modify_widget_split f l1 w l2 :
  NoDup (IconWidget.obj_id <$> (l1 ++ w :: l2)) ->
  modify_widget (IconWidget.obj_id w) f (l1 ++ w :: l2) = l1 ++ f w :: l2.
Proof.
  rewrite fmap_app, fmap_cons. intros Hnd.
  apply NoDup_app in Hnd as (_ & Hl1 & Hnd).
  apply NoDup_cons in Hnd as (Hl2 & _).
  rewrite modify_widget_app. f_equal.
  - apply modify_widget_other. intros Hin. apply (Hl1 _ Hin). by left.
  - unfold modify_widget at 1. cbn. rewrite Nat.eqb_refl. f_equal.
    by apply modify_widget_other.
Qed.

Lemma remove_widget_sublist id l : remove_widget id l `sublist_of` l.
Proof.
  induction l as [|w l IH]; cbn [remove_widget]; [done|].
  destruct (_ =? _)%nat; [by apply sublist_cons | by apply sublist_skip].
Qed.

Lemma omap_sublist {A B} (g : A -> option B) (l1 l2 : list A) :
  l1 `sublist_of` l2 -> omap g l1 `sublist_of` omap g l2.
Proof.
  induction 1 as [|x l1 l2 _ IH|x l1 l2 _ IH]; cbn; [done| |].
  - destruct (g x); [by apply sublist_skip | done].
  - destruct (g x); [by apply sublist_cons | done].
Qed.

Lemma Forall_sublist {A} (P : A -> Prop) (l1 l2 : list A) :
  l1 `sublist_of` l2 -> Forall P l2 -> Forall P l1.
Proof.
  intros Hsub. rewrite !Forall_forall. intros HP x Hx.
  apply HP. by eapply elem_of_sublist.
Qed.

Lemma ids_below l n :
  Forall (fun w => (IconWidget.obj_id w < n)%nat) l
  <-> Forall (fun i => (i < n)%nat) (IconWidget.obj_id <$> l).
Proof. by rewrite Forall_fmap. Qed.

Lemma wf_empty_registry filtered cs : wf (empty_registry filtered cs).
Proof. repeat split; cbn; constructor. Qed.

Lemma wf_sub s l u p :
  wf s -> l `sublist_of` icons s ->
  u `sublist_of` unpinned_layout s -> p `sublist_of` pinned_layout s ->
  wf (mkSystray (filtered_guids s) l (current_state s) u p (next_obj s)).
Proof.
  intros (Hids & Hnd & Hlay) Hl Hu Hp. repeat split; cbn.
  - by eapply Forall_sublist.
  - eapply sublist_NoDup; [exact Hnd|by apply fmap_sublist].
  - eapply Forall_sublist; [|exact Hlay]. by apply sublist_app.
Qed.

Lemma wf_on_icon_modified s d : wf s -> wf (on_icon_modified s d).
Proof.
  intros Hwf. pose proof Hwf as (Hids & Hnd & Hlay). unfold on_icon_modified.
  destruct (is_filtered _ _); [done|].
  destruct (find_icon _ _ _ _) as [icon|].
  - repeat split; cbn [icons next_obj unpinned_layout pinned_layout];
      [|by rewrite modify_widget_ids|done].
    apply ids_below. apply ids_below in Hids. by rewrite modify_widget_ids.
  - assert (Hfresh : next_obj s ∉ IconWidget.obj_id <$> icons s).
    { intros Hin. apply list_elem_of_fmap in Hin as (w & Hw & Hin).
      rewrite Forall_forall in Hids. specialize (Hids w Hin). lia. }
    repeat split; cbn [icons next_obj unpinned_layout pinned_layout].
    + apply ids_below. rewrite modify_widget_ids by done.
      rewrite fmap_app. apply Forall_app. split.
      * apply ids_below. eapply Forall_impl; [exact Hids|]. cbn. lia.
      * repeat constructor.
    + rewrite modify_widget_ids by done. rewrite fmap_app.
      apply NoDup_app. split; [done|]. split; [|apply NoDup_singleton].
      intros x Hx Hx'. apply list_elem_of_singleton in Hx'. cbn in Hx'. by subst.
    + destruct (IconState.is_pinned _).
      * rewrite app_assoc. apply Forall_app. split; [|repeat constructor].
        eapply Forall_impl; [exact Hlay|]. cbn. lia.
      * rewrite <- app_assoc. cbn.
        apply Forall_app in Hlay as [Hu Hp].
        apply Forall_app. split; [eapply Forall_impl; [exact Hu|]; cbn; lia|].
        constructor; [lia|]. eapply Forall_impl; [exact Hp|]. cbn. lia.
Qed.

Lemma wf_on_icon_deleted s d : wf s -> wf (on_icon_deleted s d).
Proof.
  intros Hwf. unfold on_icon_deleted.
  destruct (find_icon _ _ _ _) as [icon|]; [|done].
  apply wf_sub; [done|apply remove_widget_sublist|apply sublist_filter..].
Qed.

Lemma wf_check_icons v s : wf s -> wf (check_icons v s).
Proof. intros Hwf. apply wf_sub; [done|apply sublist_filter..]. Qed.

Lemma wf_handle s e : wf s -> wf (handle s e).
Proof.
  destruct e; cbn [handle];
    [apply wf_on_icon_modified|apply wf_on_icon_deleted|apply wf_check_icons].
Qed.

Lemma wf_run s es : wf s -> wf (run s es).
Proof.
  revert s. induction es as [|e es IH]; intros s Hwf; [done|].
  unfold run in *. cbn [fold_left]. by apply IH, wf_handle.
Qed.
End RegistryInvariant.

(** ** Placement of a new icon *)

Section Placement.
Context {W : WinTypes}.

(** C7 (as the code has it): a modify notification that the filter lets
    through and that resolves to no registry entry creates one new widget,
    registered last, and appends it to the pinned group when the saved entry
    of its identity (GUID string or path first, then path, else unpinned) is
    pinned, to the unpinned group otherwise; the modify and delete
    notifications and liveness sweeps handled before it, in any order, do
    not change the saved entries that decide. *)
Theorem first_notification_placement (s0 : Systray) (es : list Event) (d : IconData) :
  let s := run s0 es in
  wf s0 ->
  is_filtered (filtered_guids s) (guid d) = false ->
  find_icon (icons s) (guid d) (hWnd d) (uID d) = None ->
  let s' := on_icon_modified s d in
  let id := next_obj s in
  let pinned := saved_pin_flag (current_state s0) d in
  (id ∉ IconWidget.obj_id <$> icons s)
  /\ (id ∉ unpinned_layout s ++ pinned_layout s)
  /\ (exists w, icons s' = icons s ++ [w]
                /\ IconWidget.obj_id w = id
                /\ IconWidget.is_pinned w = pinned)
  /\ pinned_layout s' = (if pinned then pinned_layout s ++ [id] else pinned_layout s)
  /\ unpinned_layout s' = (if pinned then unpinned_layout s else unpinned_layout s ++ [id]).
Proof.
  cbv zeta. intros Hwf0 Hfilt Hfind.
  destruct (wf_run s0 es Hwf0) as (Hids & _ & Hlay).
  unfold on_icon_modified. rewrite Hfilt, Hfind.
  rewrite saved_data_pin_flag, run_current_state.
  cbn [icons pinned_layout unpinned_layout].
  split.
  { intros Hin. apply list_elem_of_fmap in Hin as (w & Hw & Hin).
    rewrite Forall_forall in Hids. specialize (Hids w Hin). lia. }
  split.
  { intros Hin. rewrite Forall_forall in Hlay. specialize (Hlay _ Hin). lia. }
  split.
  { eexists. rewrite modify_widget_app, modify_widget_fresh by done.
    split; [reflexivity|]. cbn. by rewrite Nat.eqb_refl. }
  by destruct (saved_pin_flag (current_state s0) d).
Qed.
End Placement.

(** A saved entry pins C:\app.exe; after another icon was placed, the first
    notification of C:\app.exe puts its widget into the pinned group. *)
Lemma first_notification_placement_witness :
  let s0 := empty_registry ∅ {[ "C:\app.exe"%string := IconState.mk true 3 ]} in
  let es := [IconModified (notification None 200 5 0 "C:\other.exe")] in
  let d := notification None 100 1 0 "C:\app.exe" in
  pinned_layout (on_icon_modified (W:=shellapi) (run (W:=shellapi) s0 es) d) = [1%nat]
  /\ unpinned_layout (on_icon_modified (W:=shellapi) (run (W:=shellapi) s0 es) d)
     = [0%nat].
Proof.
  cbv zeta.
  pose proof (first_notification_placement (W:=shellapi)
                (empty_registry ∅ {[ "C:\app.exe"%string := IconState.mk true 3 ]})
                [IconModified (notification None 200 5 0 "C:\other.exe")]
                (notification None 100 1 0 "C:\app.exe")) as Hp.
  cbv zeta in Hp.
  destruct Hp as (_ & _ & _ & Hpin & Hunpin).
  - apply wf_empty_registry.
  - vm_compute. reflexivity.
  - vm_compute. reflexivity.
  - split; [rewrite Hpin | rewrite Hunpin]; vm_compute; reflexivity.
Defined.

(** C7 fails as stated: with the battery icon switched off and a saved
    entry that pins it, a modify notification of the battery icon resolves
    to no registry entry, yet no widget is created and nothing is laid out. *)
Lemma filtered_first_notification_creates_nothing :
  let d := notification (Some BATTERY_ICON_GUID) 100 1 0 "C:\Windows\explorer.exe" in
  find_icon (icons battery_off_state) (guid d) (hWnd d) (uID d) = None
  /\ saved_pin_flag (current_state battery_off_state) d = true
  /\ on_icon_modified (W:=shellapi) battery_off_state d = battery_off_state
  /\ icons (on_icon_modified (W:=shellapi) battery_off_state d) = []
  /\ pinned_layout (on_icon_modified (W:=shellapi) battery_off_state d) = [].
Proof. cbv zeta. repeat split; vm_compute; reflexivity. Qed.

(** ** Filtering *)

(** A modify notification whose GUID is in the filter set changes nothing. *)
Lemma filtered_modify_is_noop {W : WinTypes} (s : Systray) (d : IconData) :
  is_filtered (filtered_guids s) (guid d) = true -> on_icon_modified s d = s.
Proof. apply on_icon_modified_filtered. Qed.

Lemma on_icon_deleted_unresolved (s : Systray) (d : IconData) :
  find_icon (icons s) (guid d) (hWnd d) (uID d) = None -> on_icon_deleted s d = s.
Proof. intros Hf. unfold on_icon_deleted. by rewrite Hf. Qed.

(** C8, evaluated on the delete path: the battery icon is switched off; an
    icon without GUID lives at (hwnd, uid) = (100, 1); a delete notification
    that carries the battery GUID and the same pair is not dropped: it
    removes that icon from the registry and from its layout. *)
Lemma filtered_delete_removes_live_icon :
  let s0 := empty_registry (init_filtered_guids false true) ∅ in
  let s1 := on_icon_modified (W:=shellapi) s0 (notification None 100 1 0 "C:\app.exe") in
  let del := notification (Some BATTERY_ICON_GUID) 100 1 0 "C:\Windows\explorer.exe" in
  is_filtered (filtered_guids s1) (guid del) = true
  /\ IconWidget.obj_id <$> icons s1 = [0%nat]
  /\ unpinned_layout s1 = [0%nat]
  /\ icons (on_icon_deleted s1 del) = []
  /\ unpinned_layout (on_icon_deleted s1 del) = []
  /\ on_icon_deleted s1 del <> s1.
Proof.
  cbv zeta. repeat split; try (vm_compute; reflexivity).
  intros Heq. apply (f_equal icons) in Heq. vm_compute in Heq. discriminate Heq.
Qed.

(** ** Uniqueness of identities in the registry *)

Section Uniqueness.
Context {W : WinTypes}.

Lemma omap_middle {A B} (g : A -> option B) l1 w l2 :
  omap g (l1 ++ w :: l2) = omap g l1 ++ opt_list (g w) ++ omap g l2.
Proof. rewrite omap_app. cbn. by destruct (g w). Qed.

Lemma omap_snoc {A B} (g : A -> option B) l w :
  omap g (l ++ [w]) = omap g l ++ opt_list (g w).
Proof. rewrite omap_app. cbn. by destruct (g w). Qed.

(** Replacing the contribution of one entry keeps a list free of
    duplicates when the new contribution occurs nowhere else. *)
Lemma NoDup_option_middle {A} (a b : list A) (o o' : option A) :
  NoDup (a ++ opt_list o ++ b) ->
  (forall y, o' = Some y -> (y ∉ a) /\ (y ∉ b)) ->
  NoDup (a ++ opt_list o' ++ b).
Proof.
  intros Hnd Hnew.
  assert (Hab : NoDup (a ++ b)).
  { eapply sublist_NoDup; [exact Hnd|].
    apply sublist_app; [done|]. apply sublist_inserts_l. done. }
  destruct o' as [y|]; [|done].
  destruct (Hnew y eq_refl) as [Ha Hb]. cbn.
  rewrite <- Permutation_middle. apply NoDup_cons. split; [|done].
  rewrite elem_of_app. tauto.
Qed.

Lemma NoDup_option_snoc {A} (a : list A) (o : option A) :
  NoDup a -> (forall y, o = Some y -> y ∉ a) -> NoDup (a ++ opt_list o).
Proof.
  intros Hnd Hnew. destruct o as [y|]; cbn; [|by rewrite app_nil_r].
  apply NoDup_app. split; [done|]. split; [|apply NoDup_singleton].
  intros x Hx Hx'. apply list_elem_of_singleton in Hx' as ->. by apply (Hnew y).
Qed.

Lemma refresh_widget_guid d w old :
  IconWidget.data w = Some old ->
  widget_guid (refresh_widget d w) = if carries NIF_GUID d then guid d else guid old.
Proof.
  intros Hd. unfold widget_guid, refresh_widget. cbn. rewrite Hd. cbn.
  apply update_guid.
Qed.

Lemma refresh_widget_pair d w old :
  IconWidget.data w = Some old ->
  widget_pair (refresh_widget d w) = Some (hWnd d, uID d).
Proof.
  intros Hd. unfold widget_pair, refresh_widget. cbn. rewrite Hd. cbn.
  f_equal. f_equal; [apply update_hWnd | apply update_uID].
Qed.

Lemma legacy_pair_spec w :
  legacy_pair w = match widget_guid w with
                  | Some _ => None
                  | None => widget_pair w
                  end.
Proof.
  unfold legacy_pair, widget_guid, widget_pair.
  destruct (IconWidget.data w) as [d|]; cbn; [|done]. by destruct (guid d).
Qed.

Lemma widget_guid_data w g : widget_guid w = Some g -> is_Some (IconWidget.data w).
Proof. unfold widget_guid. destruct (IconWidget.data w); [eauto|done]. Qed.

Lemma widget_pair_data w p : widget_pair w = Some p -> is_Some (IconWidget.data w).
Proof. unfold widget_pair. destruct (IconWidget.data w); [eauto|done]. Qed.

Lemma not_in_omap_guid l g :
  Forall (fun x => widget_guid x <> Some g) l -> g ∉ omap widget_guid l.
Proof.
  rewrite Forall_forall. intros Hall Hin.
  apply list_elem_of_omap in Hin as (x & Hx & Hg). by apply (Hall x).
Qed.

Lemma not_in_omap_pair l p :
  Forall (fun x => widget_pair x <> Some p) l -> p ∉ omap legacy_pair l.
Proof.
  rewrite Forall_forall. intros Hall Hin.
  apply list_elem_of_omap in Hin as (x & Hx & Hp).
  apply (Hall x Hx). rewrite legacy_pair_spec in Hp.
  by destruct (widget_guid x).
Qed.

(** The registry after [on_icon_modified], case by case: unchanged when
    the notification is filtered, one entry refreshed in place when it
    resolves, one refreshed new entry at the end otherwise. *)
Lemma on_icon_modified_icons s d :
  wf s ->
  icons (on_icon_modified s d) = icons s
  \/ (exists l1 icon l2 old,
        icons s = l1 ++ icon :: l2
        /\ icons (on_icon_modified s d) = l1 ++ refresh_widget d icon :: l2
        /\ IconWidget.data icon = Some old
        /\ ((guid d = widget_guid icon /\ is_Some (guid d))
            \/ ((forall g, guid d = Some g ->
                   Forall (fun x => widget_guid x <> Some g) (icons s))
               /\ widget_pair icon = Some (hWnd d, uID d))))
  \/ (exists icon,
        icons (on_icon_modified s d) = icons s ++ [refresh_widget d icon]
        /\ IconWidget.data icon = Some IconData_new
        /\ (forall g, guid d = Some g ->
              Forall (fun x => widget_guid x <> Some g) (icons s))
        /\ Forall (fun x => widget_pair x <> Some (hWnd d, uID d)) (icons s)).
Proof.
  intros (Hids & Hnd & _). unfold on_icon_modified.
  destruct (is_filtered _ _); [by left|].
  pose proof (find_icon_cases (icons s) (guid d) (hWnd d) (uID d)) as Hres.
  destruct (find_icon _ _ _ _) as [icon|]; cbn [icons].
  - right. left.
    destruct Hres as [(g & Hg & l1 & l2 & Hl & Hw & _)|(Hno & l1 & l2 & Hl & Hw & _)].
    + destruct (widget_guid_data _ _ Hw) as [old Hold].
      exists l1, icon, l2, old. rewrite Hl in Hnd |- *.
      rewrite modify_widget_split by done.
      repeat split; try done. left. rewrite Hg, Hw. eauto.
    + destruct (widget_pair_data _ _ Hw) as [old Hold].
      exists l1, icon, l2, old. rewrite Hl in Hnd |- *.
      rewrite modify_widget_split by done.
      repeat split; try done. right. split; [|done]. by rewrite <- Hl.
  - right. right. destruct Hres as [Hno Hpair].
    eexists. rewrite modify_widget_app, modify_widget_fresh by done.
    split; [cbn; rewrite Nat.eqb_refl; reflexivity|]. done.
Qed.

Lemma guid_unique_on_icon_modified s d :
  wf s -> guid_unique (icons s) -> guid_unique (icons (on_icon_modified s d)).
Proof.
  intros Hwf Hu. unfold guid_unique in *.
  destruct (on_icon_modified_icons s d Hwf)
    as [-> | [(l1 & icon & l2 & old & Hl & -> & Hold & Hcase) | (icon & -> & Hnew & Hno & _)]];
    [done| |].
  - rewrite Hl, omap_middle in Hu. rewrite omap_middle.
    eapply NoDup_option_middle; [exact Hu|].
    intros g Hg. rewrite (refresh_widget_guid _ _ _ Hold) in Hg.
    assert (Hwg : widget_guid icon = guid old).
    { unfold widget_guid. by rewrite Hold. }
    destruct Hcase as [[Hsame _] | [Hno _]].
    + (* resolved by GUID: the GUID stays *)
      assert (Hg' : widget_guid icon = Some g).
      { destruct (carries NIF_GUID d); congruence. }
      rewrite Hg' in Hu. cbn in Hu.
      rewrite <- Permutation_middle in Hu. apply NoDup_cons in Hu as [Hu _].
      rewrite elem_of_app in Hu. tauto.
    + destruct (carries NIF_GUID d).
      * specialize (Hno g Hg). rewrite Hl in Hno.
        apply not_in_omap_guid in Hno. rewrite omap_middle in Hno.
        rewrite !elem_of_app in Hno. tauto.
      * rewrite Hwg, Hg in Hu. cbn in Hu.
        rewrite <- Permutation_middle in Hu. apply NoDup_cons in Hu as [Hu _].
        rewrite elem_of_app in Hu. tauto.
  - rewrite omap_snoc. apply NoDup_option_snoc; [done|].
    intros g Hg. rewrite (refresh_widget_guid _ _ _ Hnew) in Hg.
    apply not_in_omap_guid, Hno.
    destruct (carries NIF_GUID d); [done|discriminate].
Qed.

Lemma pair_unique_on_icon_modified s d :
  wf s -> (carries NIF_GUID d = true -> guid d <> None) ->
  pair_unique (icons s) -> pair_unique (icons (on_icon_modified s d)).
Proof.
  intros Hwf Hsound Hu. unfold pair_unique in *.
  destruct (on_icon_modified_icons s d Hwf)
    as [-> | [(l1 & icon & l2 & old & Hl & -> & Hold & Hcase) | (icon & -> & Hnew & _ & Hno)]];
    [done| |].
  - rewrite Hl, omap_middle in Hu. rewrite omap_middle.
    eapply NoDup_option_middle; [exact Hu|].
    intros p Hp. rewrite legacy_pair_spec in Hp.
    rewrite (refresh_widget_guid _ _ _ Hold), (refresh_widget_pair _ _ _ Hold) in Hp.
    assert (Hwg : widget_guid icon = guid old).
    { unfold widget_guid. by rewrite Hold. }
    destruct Hcase as [[Hsame [g Hg]] | [_ Hpair]].
    + (* resolved by GUID: the entry has a GUID before and after *)
      exfalso. rewrite <- Hwg, <- Hsame, Hg in Hp. by destruct (carries NIF_GUID d).
    + destruct (carries NIF_GUID d) eqn:Hc.
      * exfalso. specialize (Hsound eq_refl). by destruct (guid d).
      * (* the entry keeps its GUID status and its pair *)
        assert (Hlp : legacy_pair icon = Some p).
        { rewrite legacy_pair_spec, Hwg, Hpair. by destruct (guid old). }
        rewrite Hlp in Hu. cbn in Hu.
        rewrite <- Permutation_middle in Hu. apply NoDup_cons in Hu as [Hu _].
        rewrite elem_of_app in Hu. tauto.
  - rewrite omap_snoc. apply NoDup_option_snoc; [done|].
    intros p Hp. rewrite legacy_pair_spec in Hp.
    rewrite (refresh_widget_pair _ _ _ Hnew) in Hp.
    apply not_in_omap_pair.
    destruct (widget_guid _); [done|]. by injection Hp as <-.
Qed.

Lemma handle_icons_sublist s e :
  match e with
  | IconModified _ => True
  | IconDeleted _ | CheckIcons _ => icons (handle s e) `sublist_of` icons s
  end.
Proof.
  destruct e as [d|d|v]; [done| |]; cbn [handle].
  - unfold on_icon_deleted. destruct (find_icon _ _ _ _); [|done].
    apply remove_widget_sublist.
  - apply sublist_filter.
Qed.

Lemma guid_unique_handle s e :
  wf s -> guid_unique (icons s) -> guid_unique (icons (handle s e)).
Proof.
  intros Hwf Hu. pose proof (handle_icons_sublist s e) as Hsub.
  destruct e as [d|d|v]; [by apply guid_unique_on_icon_modified|..];
    (eapply sublist_NoDup; [exact Hu|by apply omap_sublist]).
Qed.

Lemma pair_unique_handle s e :
  wf s -> guid_flag_sound e -> pair_unique (icons s) -> pair_unique (icons (handle s e)).
Proof.
  intros Hwf Hs Hu. pose proof (handle_icons_sublist s e) as Hsub.
  destruct e as [d|d|v]; [by apply pair_unique_on_icon_modified|..];
    (eapply sublist_NoDup; [exact Hu|by apply omap_sublist]).
Qed.

Lemma guid_unique_run s es :
  wf s -> guid_unique (icons s) -> guid_unique (icons (run s es)).
Proof.
  revert s. induction es as [|e es IH]; intros s Hwf Hu; [done|].
  unfold run in *. cbn [fold_left].
  apply IH; [by apply wf_handle|by apply guid_unique_handle].
Qed.

Lemma pair_unique_run s es :
  wf s -> Forall guid_flag_sound es -> pair_unique (icons s) ->
  pair_unique (icons (run s es)).
Proof.
  revert s. induction es as [|e es IH]; intros s Hwf Hs Hu; [done|].
  apply Forall_cons in Hs as [He Hes].
  unfold run in *. cbn [fold_left].
  apply IH; [by apply wf_handle|done|by apply pair_unique_handle].
Qed.

(** C9 (as the code has it): in every state reached from an empty registry
    by modify notifications, delete notifications and liveness sweeps, no
    two entries have the same GUID; and when every modify notification that
    sets the GUID presence flag carries a GUID, no two entries without GUID
    have the same (hwnd, uid) pair. *)
Theorem registry_identity_invariant (filtered : gset N)
    (cs : gmap string IconState.t) (es : list Event) :
  let s := run (empty_registry filtered cs) es in
  guid_unique (icons s)
  /\ (Forall guid_flag_sound es -> pair_unique (icons s)).
Proof.
  cbv zeta. split.
  - apply guid_unique_run; [apply wf_empty_registry|]. cbn. constructor.
  - intros Hs. apply pair_unique_run; [apply wf_empty_registry|done|].
    cbn. constructor.
Qed.
End Uniqueness.

(** C9 fails as stated: after [guid_cleared_run] the registry holds two
    entries without GUID at the same (hwnd, uid) = (1, 1). *)
Lemma cleared_guid_duplicates_pair :
  let s := run (W:=shellapi) (empty_registry ∅ ∅) guid_cleared_run in
  ((fun w => (IconWidget.obj_id w, widget_guid w, widget_pair w)) <$> icons s)
  = [ (0%nat, None, Some (1, 1)); (1%nat, None, Some (1, 1)) ]
  /\ ~ pair_unique (icons s).
Proof.
  cbv zeta. split; [vm_compute; reflexivity|].
  unfold pair_unique. intros Hnd.
  assert (Hl : omap legacy_pair
                 (icons (run (W:=shellapi) (empty_registry ∅ ∅) guid_cleared_run))
               = [(1, 1); (1, 1)]) by (vm_compute; reflexivity).
  rewrite Hl in Hnd. apply NoDup_cons in Hnd as [Hin _].
  apply Hin. by left.
Qed.

(** Without the last notification of that run every flag is sound, and the
    invariant holds; still an entry with a GUID and an entry without share
    the pair (1, 1), and a notification without GUID for (1, 1) resolves to
    the one with the GUID, which is first in the registry. *)
Lemma guid_entry_shares_pair :
  let s := run (W:=shellapi) (empty_registry ∅ ∅) (take 3 guid_cleared_run) in
  ((fun w => (IconWidget.obj_id w, widget_guid w, widget_pair w)) <$> icons s)
  = [ (0%nat, Some 7%N, Some (1, 1)); (1%nat, None, Some (1, 1)) ]
  /\ (IconWidget.obj_id <$> find_icon (icons s) None 1 1) = Some 0%nat.
Proof. cbv zeta. split; vm_compute; reflexivity. Qed.

(** The invariant at the first three notifications of that run. *)
Lemma registry_identity_invariant_witness :
  let s := run (W:=shellapi) (empty_registry ∅ ∅) (take 3 guid_cleared_run) in
  guid_unique (icons s) /\ pair_unique (icons s).
Proof.
  cbv zeta.
  destruct (registry_identity_invariant (W:=shellapi) ∅ ∅ (take 3 guid_cleared_run))
    as [Hg Hp].
  split; [exact Hg|]. apply Hp.
  unfold guid_cleared_run. cbn [take].
  repeat (apply Forall_cons; split); [..|apply Forall_nil_2];
    intros Hc; first [discriminate | vm_compute in Hc; discriminate Hc].
Defined.

(** ** The sorter *)

Section StableSort.
Context {A : Type} (key : A -> Z).

Lemma insert_by_perm x l : insert_by key x l ≡ₚ x :: l.
Proof.
  induction l as [|y l IH]; cbn [insert_by]; [done|].
  destruct (key x <=? key y); [done|].
  rewrite IH. apply Permutation_swap.
Qed.

Lemma sort_by_perm l : sort_by key l ≡ₚ l.
Proof.
  induction l as [|x l IH]; cbn [sort_by]; [done|].
  by rewrite insert_by_perm, IH.
Qed.

Lemma insert_by_ascending x l : ascending key l -> ascending key (insert_by key x l).
Proof.
  unfold ascending. induction 1 as [|y l Hl IH Hy]; cbn [insert_by].
  - repeat constructor.
  - destruct (Z.leb_spec (key x) (key y)) as [Hle|Hlt].
    + constructor; [by constructor|]. constructor; [done|].
      eapply Forall_impl; [exact Hy|]. cbn. lia.
    + constructor; [done|].
      rewrite insert_by_perm. constructor; [lia|done].
Qed.

Lemma sort_by_ascending l : ascending key (sort_by key l).
Proof.
  induction l as [|x l IH]; cbn [sort_by]; [constructor|].
  by apply insert_by_ascending.
Qed.

Lemma insert_by_filter x l k :
  filter (fun y => key y = k) (insert_by key x l) = filter (fun y => key y = k) (x :: l).
Proof.
  induction l as [|y l IH]; cbn [insert_by]; [done|].
  destruct (Z.leb_spec (key x) (key y)) as [Hle|Hlt]; [done|].
  rewrite filter_cons, IH, !filter_cons.
  repeat case_decide; try done. lia.
Qed.

Lemma sort_by_filter l k :
  filter (fun y => key y = k) (sort_by key l) = filter (fun y => key y = k) l.
Proof.
  induction l as [|x l IH]; cbn [sort_by]; [done|].
  by rewrite insert_by_filter, !filter_cons, IH.
Qed.

(** [sort_by] is a stable sort. *)
Lemma sort_by_stable l : stable_sorted key l (sort_by key l).
Proof.
  split; [apply sort_by_perm|]. split; [apply sort_by_ascending|].
  intros k. apply sort_by_filter.
Qed.

Lemma insert_by_least x l :
  Forall (fun y => key x <= key y) l -> insert_by key x l = x :: l.
Proof.
  destruct 1 as [|y l Hy _]; cbn [insert_by]; [done|].
  destruct (Z.leb_spec (key x) (key y)); [done|lia].
Qed.

(** A list in ascending order is left as it is. *)
Lemma sort_by_ascending_id l : ascending key l -> sort_by key l = l.
Proof.
  unfold ascending. induction 1 as [|x l Hl IH Hx]; cbn [sort_by]; [done|].
  rewrite IH. by apply insert_by_least.
Qed.

Lemma ascending_positions l c :
  (forall i x, l !! i = Some x -> key x = c + Z.of_nat i) -> ascending key l.
Proof.
  unfold ascending. revert c. induction l as [|x l IH]; intros c Hpos; constructor.
  - apply (IH (c + 1)). intros i y Hy. rewrite (Hpos (S i) y Hy). lia.
  - apply Forall_forall. intros y Hy.
    apply list_elem_of_lookup in Hy as [i Hi].
    rewrite (Hpos 0%nat x eq_refl), (Hpos (S i) y Hi). lia.
Qed.
End StableSort.

(** ** Putting the sorted widgets back into the layout *)

Lemma widget_of_Some l id w :
  widget_of l id = Some w -> IconWidget.obj_id w = id /\ w ∈ l.
Proof.
  induction l as [|x l IH]; cbn [widget_of]; [done|].
  destruct (Nat.eqb_spec (IconWidget.obj_id x) id) as [Heq|Hne].
  - intros [= <-]. split; [done|by left].
  - intros Hw. destruct (IH Hw). split; [done|by right].
Qed.

Lemma get_widgets_ids l layout :
  resolves l layout ->
  IconWidget.obj_id <$> get_widgets_from_layout l layout = layout.
Proof.
  unfold resolves, get_widgets_from_layout.
  induction 1 as [|id layout [w Hw] _ IH]; [done|].
  cbn. rewrite Hw. cbn. cbn in IH. rewrite IH.
  by destruct (widget_of_Some _ _ _ Hw) as [-> _].
Qed.

Lemma get_widgets_registered l layout :
  Forall (fun w => widget_of l (IconWidget.obj_id w) = Some w)
    (get_widgets_from_layout l layout).
Proof.
  unfold get_widgets_from_layout. induction layout as [|id layout IH]; [constructor|].
  cbn. destruct (widget_of l id) as [w|] eqn:Hw; [|done].
  constructor; [|done]. by destruct (widget_of_Some _ _ _ Hw) as [-> _].
Qed.

Lemma get_widgets_self l ws :
  Forall (fun w => widget_of l (IconWidget.obj_id w) = Some w) ws ->
  get_widgets_from_layout l (IconWidget.obj_id <$> ws) = ws.
Proof.
  unfold get_widgets_from_layout. induction 1 as [|w ws Hw _ IH]; [done|].
  cbn. rewrite Hw. cbn in IH. by rewrite IH.
Qed.

Lemma list_index_app pre w rest :
  IconWidget.obj_id w ∉ IconWidget.obj_id <$> pre ->
  list_index (IconWidget.obj_id w) (pre ++ w :: rest) = length pre.
Proof.
  induction pre as [|x pre IH]; cbn; intros Hin.
  - by rewrite Nat.eqb_refl.
  - rewrite not_elem_of_cons in Hin. destruct Hin as [Hne Hin].
    destruct (Nat.eqb_spec (IconWidget.obj_id x) (IconWidget.obj_id w)); [congruence|].
    by rewrite IH.
Qed.

Lemma layout_remove_absent id l : id ∉ l -> layout_remove id l = l.
Proof.
  unfold layout_remove. induction l as [|x l IH]; [done|].
  intros Hin. rewrite not_elem_of_cons in Hin. destruct Hin as [Hne Hin].
  rewrite filter_cons, decide_True by congruence. by rewrite IH.
Qed.

Lemma layout_remove_perm id l r :
  NoDup l -> l ≡ₚ id :: r -> layout_remove id l ≡ₚ r.
Proof.
  intros Hnd Hp. unfold layout_remove.
  rewrite Hp in Hnd |- *. apply NoDup_cons in Hnd as [Hid _].
  rewrite filter_cons, decide_False by (intros Hne; by apply Hne).
  fold (layout_remove id r). by rewrite layout_remove_absent.
Qed.

(** One turn of the loop: the widget that comes next in the sorted list is
    moved right behind the widgets already placed. *)
Lemma insertWidget_next (pre_ids : list nat) id R :
  id ∉ pre_ids ->
  insertWidget (length pre_ids) id (pre_ids ++ R)
  = pre_ids ++ id :: layout_remove id R.
Proof.
  intros Hin. unfold insertWidget, layout_remove.
  rewrite filter_app. fold (layout_remove id pre_ids).
  rewrite layout_remove_absent by done.
  by rewrite take_app_length, drop_app_length.
Qed.

Lemma reinsert_from sorted pre rest R :
  sorted = pre ++ rest ->
  NoDup (IconWidget.obj_id <$> sorted) ->
  NoDup R ->
  R ≡ₚ IconWidget.obj_id <$> rest ->
  fold_left
    (fun lay w => insertWidget (list_index (IconWidget.obj_id w) sorted)
                    (IconWidget.obj_id w) lay)
    rest ((IconWidget.obj_id <$> pre) ++ R)
  = IconWidget.obj_id <$> sorted.
Proof.
  revert pre R. induction rest as [|w rest IH]; intros pre R Hs Hnd HR Hp.
  - cbn. apply Permutation_nil_r in Hp. subst. by rewrite !app_nil_r.
  - cbn [fold_left].
    assert (Hfresh : IconWidget.obj_id w ∉ IconWidget.obj_id <$> pre).
    { rewrite Hs, fmap_app, fmap_cons in Hnd.
      apply NoDup_app in Hnd as (_ & Hd & _). intros Hin.
      apply (Hd _ Hin). by left. }
    rewrite Hs at 1. rewrite list_index_app by done.
    replace (length pre) with (length (IconWidget.obj_id <$> pre))
      by apply length_fmap.
    rewrite insertWidget_next by done.
    replace ((IconWidget.obj_id <$> pre)
             ++ IconWidget.obj_id w :: layout_remove (IconWidget.obj_id w) R)
      with ((IconWidget.obj_id <$> (pre ++ [w]))
            ++ layout_remove (IconWidget.obj_id w) R)
      by (by rewrite fmap_app, <- app_assoc).
    apply IH.
    + by rewrite <- app_assoc.
    + done.
    + by apply NoDup_filter.
    + by apply layout_remove_perm.
Qed.

(** After the loop the layout shows the sorted list. *)
Lemma reinsert_sorted sorted layout :
  NoDup layout ->
  IconWidget.obj_id <$> sorted ≡ₚ layout ->
  reinsert sorted layout = IconWidget.obj_id <$> sorted.
Proof.
  intros Hnd Hp. unfold reinsert.
  apply (reinsert_from sorted [] sorted layout); [done| |done|done].
  by rewrite Hp.
Qed.

Lemma sorted_layout_ids s layout :
  NoDup layout -> resolves (icons s) layout ->
  sorted_layout s layout
  = IconWidget.obj_id <$>
      sort_by (get_sort_index (current_state s))
        (get_widgets_from_layout (icons s) layout).
Proof.
  intros Hnd Hres. unfold sorted_layout. apply reinsert_sorted; [done|].
  rewrite sort_by_perm. by rewrite get_widgets_ids.
Qed.

(** ** What [sort_icons] does to the two groups *)

(** C2 (as the code has it): [sort_icons] leaves each group stable-sorted
    by the sort key of its widgets; the key is the saved index under the
    GUID string when the widget has a GUID, with no second lookup under
    the path, and the saved index under the path when it has none; it is
    9999 when that one lookup fails or the widget has no data. *)
Theorem sort_icons_orders_groups (s : Systray) :
  NoDup (unpinned_layout s) -> NoDup (pinned_layout s) ->
  resolves (icons s) (unpinned_layout s) -> resolves (icons s) (pinned_layout s) ->
  let cs := current_state s in
  let key := get_sort_index cs in
  (exists sorted,
      unpinned_layout (sort_icons s) = IconWidget.obj_id <$> sorted
      /\ stable_sorted key (get_widgets_from_layout (icons s) (unpinned_layout s)) sorted)
  /\ (exists sorted,
        pinned_layout (sort_icons s) = IconWidget.obj_id <$> sorted
        /\ stable_sorted key (get_widgets_from_layout (icons s) (pinned_layout s)) sorted)
  /\ (forall w, IconWidget.data w = None -> key w = 9999)
  /\ (forall w d g, IconWidget.data w = Some d -> guid d = Some g ->
        key w = from_option IconState.index 9999 (cs !! uuid_str g))
  /\ (forall w d, IconWidget.data w = Some d -> guid d = None ->
        key w = from_option IconState.index 9999 (cs !! exe_path d)).
Proof.
  intros Hu Hp Hru Hrp. cbv zeta.
  split; [|split; [|split; [|split]]].
  - eexists. split; [|apply sort_by_stable].
    cbn [sort_icons update_current_state unpinned_layout].
    by apply sorted_layout_ids.
  - eexists. split; [|apply sort_by_stable].
    cbn [sort_icons update_current_state pinned_layout].
    by apply sorted_layout_ids.
  - intros w Hd. unfold get_sort_index. by rewrite Hd.
  - intros w d g Hd Hg. unfold get_sort_index. rewrite Hd, Hg.
    by destruct (current_state s !! uuid_str g).
  - intros w d Hd Hg. unfold get_sort_index. rewrite Hd, Hg.
    by destruct (current_state s !! exe_path d).
Qed.

(** The unpinned group of [unsorted_state] after [sort_icons]. *)
Lemma sort_icons_orders_groups_witness :
  exists sorted,
    unpinned_layout (sort_icons unsorted_state) = IconWidget.obj_id <$> sorted
    /\ stable_sorted (get_sort_index (current_state unsorted_state))
         (get_widgets_from_layout (icons unsorted_state)
            (unpinned_layout unsorted_state))
         sorted.
Proof.
  pose proof (sort_icons_orders_groups unsorted_state) as Hs. cbv zeta in Hs.
  destruct Hs as (Hu & _).
  - compute_done.
  - compute_done.
  - compute_done.
  - compute_done.
  - exact Hu.
Defined.

(** C2 fails as stated: the first widget has a GUID, nothing is saved
    under its GUID string, and index 0 is saved under its path; the second
    has saved index 1. With the path as second lookup the first widget has
    key 0 and stays in front; the code gives it 9999 and puts it last. *)
Lemma sort_key_has_no_path_fallback :
  let a := widget 0 (Some 7%N) 100 1 "C:\a.exe" false false in
  let b := widget 1 None 200 1 "C:\b.exe" false false in
  let cs := current_state path_saved_state in
  spec_sort_index cs a = 0
  /\ get_sort_index cs a = 9999
  /\ IconWidget.obj_id <$> sort_by (spec_sort_index cs) [a; b] = [0%nat; 1%nat]
  /\ unpinned_layout (sort_icons path_saved_state) = [1%nat; 0%nat].
Proof. cbv zeta. repeat split; vm_compute; reflexivity. Qed.

(** ** Sorting twice *)

Lemma indexOf_absent id l : id ∉ l -> indexOf id l = -1.
Proof.
  induction l as [|x l IH]; cbn [indexOf]; [done|].
  intros Hin. rewrite not_elem_of_cons in Hin. destruct Hin as [Hne Hin].
  destruct (Nat.eqb_spec x id); [congruence|]. by rewrite IH.
Qed.

Lemma indexOf_lookup l i id :
  NoDup l -> l !! i = Some id -> indexOf id l = Z.of_nat i.
Proof.
  revert i. induction l as [|x l IH]; intros i Hnd Hi; [done|].
  apply NoDup_cons in Hnd as [Hx Hnd]. cbn [indexOf].
  destruct i as [|i]; cbn in Hi.
  - injection Hi as ->. by rewrite Nat.eqb_refl.
  - destruct (Nat.eqb_spec x id) as [->|Hne].
    + exfalso. apply Hx. by eapply list_elem_of_lookup_2.
    + rewrite (IH i) by done.
      destruct (Z.eqb_spec (Z.of_nat i) (-1)); lia.
Qed.

Lemma writes_key_visible k w : writes_key k w = true <-> visible_key w = Some k.
Proof.
  unfold writes_key, visible_key. destruct (IconWidget.data w) as [d|]; [|done].
  destruct (IconWidget.isHidden w); cbn; [done|].
  case_bool_decide; split; intros; simplify_eq; done.
Qed.

Lemma no_writer l k :
  k ∉ omap visible_key l -> filter (fun x => writes_key k x = true) l = [].
Proof.
  induction l as [|x l IH]; [done|]. intros Hk. cbn in Hk.
  rewrite filter_cons.
  destruct (visible_key x) as [kx|] eqn:Hx.
  - rewrite not_elem_of_cons in Hk. destruct Hk as [Hne Hk].
    rewrite decide_False; [by apply IH|].
    rewrite writes_key_visible. congruence.
  - rewrite decide_False; [by apply IH|].
    rewrite writes_key_visible. congruence.
Qed.

(** With distinct snapshot keys, a widget is the only writer of its key. *)
Lemma sole_writer l w k :
  NoDup (omap visible_key l) -> w ∈ l -> visible_key w = Some k ->
  filter (fun x => writes_key k x = true) l = [w].
Proof.
  induction l as [|x l IH]; intros Hnd Hin Hk; [by apply elem_of_nil in Hin|].
  rewrite filter_cons. cbn in Hnd.
  destruct (visible_key x) as [kx|] eqn:Hx.
  - apply NoDup_cons in Hnd as [Hfresh Hnd].
    destruct (decide (kx = k)) as [->|Hne].
    + rewrite decide_True by (by apply writes_key_visible).
      rewrite no_writer by done.
      apply elem_of_cons in Hin as [->|Hin]; [done|].
      exfalso. apply Hfresh. apply list_elem_of_omap. eauto.
    + rewrite decide_False by (rewrite writes_key_visible; congruence).
      apply elem_of_cons in Hin as [->|Hin]; [congruence|]. by apply IH.
  - rewrite decide_False by (rewrite writes_key_visible; congruence).
    apply elem_of_cons in Hin as [->|Hin]; [congruence|]. by apply IH.
Qed.

Lemma get_sort_index_snapshot_key cs w d :
  IconWidget.data w = Some d ->
  get_sort_index cs w = from_option IconState.index 9999 (cs !! snapshot_key d).
Proof.
  intros Hd. unfold get_sort_index. rewrite Hd.
  destruct (guid d) as [g|] eqn:Hg.
  - rewrite (snapshot_key_guid d g Hg). by destruct (cs !! uuid_str g).
  - rewrite (snapshot_key_path d Hg). by destruct (cs !! exe_path d).
Qed.

(** After a snapshot, the sort key of a visible widget with a key of its
    own is its index in the layout. *)
Lemma sort_index_after_snapshot s w :
  NoDup (omap visible_key (icons s)) -> w ∈ icons s -> is_Some (visible_key w) ->
  get_sort_index (current_state (update_current_state s)) w
  = layout_index s (IconWidget.obj_id w).
Proof.
  intros Hnd Hin [k Hk].
  assert (exists d, IconWidget.data w = Some d /\ snapshot_key d = k) as (d & Hd & Hkd).
  { unfold visible_key in Hk. destruct (IconWidget.data w) as [d|]; [|done].
    destruct (IconWidget.isHidden w); [done|]. exists d. split; congruence. }
  rewrite (get_sort_index_snapshot_key _ _ _ Hd), Hkd.
  rewrite update_current_state_lookup, (sole_writer _ _ _ Hnd Hin Hk). done.
Qed.

(** A layout that shows its widgets in the order of their sort keys
    0, 1, 2, ... is left as it is. *)
Lemma sorted_layout_fixed s ws :
  NoDup (IconWidget.obj_id <$> ws) ->
  Forall (fun w => widget_of (icons s) (IconWidget.obj_id w) = Some w) ws ->
  (forall i w, ws !! i = Some w ->
      get_sort_index (current_state s) w = Z.of_nat i) ->
  sorted_layout s (IconWidget.obj_id <$> ws) = IconWidget.obj_id <$> ws.
Proof.
  intros Hnd Hreg Hpos.
  rewrite sorted_layout_ids; [|done|].
  - rewrite get_widgets_self by done.
    rewrite sort_by_ascending_id; [done|].
    apply (ascending_positions _ _ 0). intros i w Hw. rewrite (Hpos i w Hw). lia.
  - unfold resolves. apply Forall_fmap. eapply Forall_impl; [exact Hreg|].
    intros w Hw. cbn. rewrite Hw. eauto.
Qed.

Lemma all_visible_resolves l layout : all_visible l layout -> resolves l layout.
Proof.
  unfold all_visible, resolves. intros Hv. eapply Forall_impl; [exact Hv|].
  intros id (w & Hw & _). rewrite Hw. eauto.
Qed.

(** The first sort, seen as lists of widgets. *)
Lemma first_sort_widgets s layout :
  NoDup layout -> all_visible (icons s) layout ->
  exists ws,
    sorted_layout s layout = IconWidget.obj_id <$> ws
    /\ IconWidget.obj_id <$> ws ≡ₚ layout
    /\ Forall (fun w => widget_of (icons s) (IconWidget.obj_id w) = Some w
                        /\ w ∈ icons s /\ is_Some (visible_key w)) ws.
Proof.
  intros Hnd Hvis. pose proof (all_visible_resolves _ _ Hvis) as Hres.
  exists (sort_by (get_sort_index (current_state s))
            (get_widgets_from_layout (icons s) layout)).
  split; [by apply sorted_layout_ids|].
  split; [by rewrite sort_by_perm, get_widgets_ids|].
  rewrite sort_by_perm.
  pose proof (get_widgets_registered (icons s) layout) as Hreg.
  pose proof (get_widgets_ids (icons s) layout Hres) as Hids.
  apply Forall_forall. intros w Hw.
  rewrite Forall_forall in Hreg. specialize (Hreg w Hw).
  split; [done|]. split; [by destruct (widget_of_Some _ _ _ Hreg)|].
  assert (Hid : IconWidget.obj_id w ∈ layout).
  { rewrite <- Hids. apply list_elem_of_fmap. eauto. }
  unfold all_visible in Hvis. rewrite Forall_forall in Hvis.
  destruct (Hvis _ Hid) as (w' & Hw' & Hv). congruence.
Qed.

(** C6 (as the code has it): when the two groups hold each widget once,
    every laid-out widget is in the registry, has data and is not hidden,
    and the visible widgets of the registry have distinct snapshot keys,
    a second [sort_icons] right after the first leaves both groups in the
    order that the first one gave them. *)
Theorem sort_icons_idempotent (s : Systray) :
  NoDup (unpinned_layout s ++ pinned_layout s) ->
  all_visible (icons s) (unpinned_layout s ++ pinned_layout s) ->
  NoDup (omap visible_key (icons s)) ->
  unpinned_layout (sort_icons (sort_icons s)) = unpinned_layout (sort_icons s)
  /\ pinned_layout (sort_icons (sort_icons s)) = pinned_layout (sort_icons s).
Proof.
  intros Hnd Hvis Hkeys.
  apply NoDup_app in Hnd as (HndU & Hdisj & HndP).
  apply Forall_app in Hvis as [HvisU HvisP].
  destruct (first_sort_widgets s _ HndU HvisU) as (wu & HU1 & HpU & HregU).
  destruct (first_sort_widgets s _ HndP HvisP) as (wp & HP1 & HpP & HregP).
  assert (HndU1 : NoDup (IconWidget.obj_id <$> wu)) by (by rewrite HpU).
  assert (HndP1 : NoDup (IconWidget.obj_id <$> wp)) by (by rewrite HpP).
  set (mid := mkSystray (filtered_guids s) (icons s) (current_state s)
                (sorted_layout s (unpinned_layout s))
                (sorted_layout s (pinned_layout s)) (next_obj s)).
  assert (Hs1 : sort_icons s = update_current_state mid) by done.
  assert (Hkey : forall w, w ∈ icons s -> is_Some (visible_key w) ->
             get_sort_index (current_state (sort_icons s)) w
             = layout_index mid (IconWidget.obj_id w)).
  { intros w Hw Hv. rewrite Hs1. by apply sort_index_after_snapshot. }
  split.
  - change (sorted_layout (sort_icons s) (sorted_layout s (unpinned_layout s))
            = sorted_layout s (unpinned_layout s)).
    rewrite HU1. apply sorted_layout_fixed; [done| |].
    + eapply Forall_impl; [exact HregU|]. by intros w (Hw & _).
    + intros i w Hi. rewrite Forall_forall in HregU.
      destruct (HregU w) as (_ & Hin & Hv); [by eapply list_elem_of_lookup_2|].
      rewrite (Hkey w Hin Hv). unfold layout_index. cbn [mid unpinned_layout].
      rewrite HU1, (indexOf_lookup _ i) by (done || by rewrite list_lookup_fmap, Hi).
      destruct (Z.eqb_spec (Z.of_nat i) (-1)); [lia|done].
  - change (sorted_layout (sort_icons s) (sorted_layout s (pinned_layout s))
            = sorted_layout s (pinned_layout s)).
    rewrite HP1. apply sorted_layout_fixed; [done| |].
    + eapply Forall_impl; [exact HregP|]. by intros w (Hw & _).
    + intros i w Hi. rewrite Forall_forall in HregP.
      destruct (HregP w) as (_ & Hin & Hv); [by eapply list_elem_of_lookup_2|].
      rewrite (Hkey w Hin Hv). unfold layout_index. cbn [mid unpinned_layout pinned_layout].
      assert (Hp : IconWidget.obj_id w ∈ pinned_layout s).
      { rewrite <- HpP. apply list_elem_of_fmap. exists w. split; [done|].
        by eapply list_elem_of_lookup_2. }
      rewrite HU1, indexOf_absent.
      2: { rewrite HpU. intros Hu. by apply (Hdisj _ Hu). }
      cbn. rewrite HP1. apply indexOf_lookup; [done|].
      by rewrite list_lookup_fmap, Hi.
Qed.

(** [unsorted_state]: the first sort swaps the unpinned widgets, the second
    changes nothing. *)
Lemma sort_icons_idempotent_witness :
  unpinned_layout (sort_icons unsorted_state) = [1%nat; 0%nat]
  /\ unpinned_layout (sort_icons (sort_icons unsorted_state)) = [1%nat; 0%nat]
  /\ pinned_layout (sort_icons (sort_icons unsorted_state)) = [2%nat].
Proof.
  destruct (sort_icons_idempotent unsorted_state) as [Hu Hp].
  - compute_done.
  - unfold all_visible. repeat constructor; eexists; (split; [reflexivity|]);
      vm_compute; eauto.
  - compute_done.
  - rewrite Hu, Hp. repeat split; vm_compute; reflexivity.
Defined.

(** C6 fails as stated: a hidden widget stands in front of a visible one
    and nothing is saved. The first sort keeps the order (both keys are
    9999) and then records index 1 for the visible widget alone; the second
    sort moves the visible widget in front of the hidden one. *)
Lemma sort_twice_moves_hidden_widget :
  unpinned_layout hidden_first_state = [0%nat; 1%nat]
  /\ unpinned_layout (sort_icons hidden_first_state) = [0%nat; 1%nat]
  /\ unpinned_layout (sort_icons (sort_icons hidden_first_state)) = [1%nat; 0%nat].
Proof. repeat split; vm_compute; reflexivity. Qed.

(** ** The filter set *)

Example uuid_str_battery :
  uuid_str BATTERY_ICON_GUID = "7820ae75-23e3-4229-82c1-e41cb67d5b9c"%string.
Proof. vm_compute. reflexivity. Qed.

Example battery_is_filtered_when_off :
  is_filtered (init_filtered_guids false true) (Some BATTERY_ICON_GUID) = true
  /\ is_filtered (init_filtered_guids false true) (Some VOLUME_ICON_GUID) = false
  /\ is_filtered (init_filtered_guids true true) (Some BATTERY_ICON_GUID) = false.
Proof. repeat split; vm_compute; reflexivity. Qed.

(** * Further properties of the tray icon host *)

(** ** A notification handled twice *)

Lemma IconData_ext (a b : IconData) :
  message_type a = message_type b -> hWnd a = hWnd b -> uID a = uID b ->
  uFlags a = uFlags b -> uVersion a = uVersion b ->
  uCallbackMessage a = uCallbackMessage b -> hIcon a = hIcon b ->
  szTip a = szTip b -> dwState a = dwState b -> dwStateMask a = dwStateMask b ->
  guid a = guid b -> dwInfoFlags a = dwInfoFlags b ->
  szInfoTitle a = szInfoTitle b -> szInfo a = szInfo b -> uTimeout a = uTimeout b ->
  icon_image a = icon_image b -> exe a = exe b -> exe_path a = exe_path b ->
  a = b.
Proof. destruct a, b. cbn. intros. by subst. Qed.

Lemma update_fields_twice {W : WinTypes} (old d : IconData) :
  update_fields (update_fields old d) d = update_fields old d.
Proof.
  apply IconData_ext;
    rewrite ?update_message_type, ?update_hWnd, ?update_uID, ?update_uFlags,
      ?update_icon_image, ?update_exe, ?update_exe_path; try reflexivity.
  - rewrite !update_uVersion. by destruct (version_in_range d).
  - rewrite !update_uCallbackMessage. by destruct (carries NIF_MESSAGE d).
  - rewrite !update_hIcon. by destruct (carries NIF_ICON d).
  - rewrite !update_szTip. by destruct (carries NIF_TIP d).
  - rewrite !update_dwState. by destruct (carries NIF_STATE d).
  - rewrite !update_dwStateMask. by destruct (carries NIF_STATE d).
  - rewrite !update_guid. by destruct (carries NIF_GUID d).
  - rewrite !update_dwInfoFlags. by destruct (carries NIF_INFO d).
  - rewrite !update_szInfoTitle. by destruct (carries NIF_INFO d).
  - rewrite !update_szInfo. by destruct (carries NIF_INFO d).
  - rewrite !update_uTimeout. by destruct (carries NIF_INFO d).
Qed.

(** X1: handling the same notification a second time changes no field of
    the record that [update_icon_data] keeps, and a missing record stays
    missing. *)
Theorem update_fields_idempotent {W : WinTypes} (old : option IconData)
    (d : IconData) :
  update_icon_data (update_icon_data old d) d = update_icon_data old d.
Proof.
  destruct old as [old|]; [|done].
  cbn [update_icon_data]. by rewrite update_fields_twice.
Qed.

Lemma refresh_widget_idempotent {W : WinTypes} d w :
  refresh_widget d (refresh_widget d w) = refresh_widget d w.
Proof.
  unfold refresh_widget. cbn [IconWidget.obj_id IconWidget.data IconWidget.is_pinned].
  f_equal. destruct (IconWidget.data w) as [old|]; [|done].
  cbn [update_icon_data]. by rewrite update_fields_twice.
Qed.

Lemma find_by_guid_first l1 w l2 g :
  Forall (fun x => widget_guid x <> Some g) l1 -> widget_guid w = Some g ->
  find_by_guid (l1 ++ w :: l2) g = Some w.
Proof.
  intros Hl1 Hw. induction Hl1 as [|x l1 Hx _ IH]; cbn.
  - unfold widget_guid in Hw. destruct (IconWidget.data w) as [d|]; [|done].
    cbn in Hw. rewrite Hw. by rewrite N.eqb_refl.
  - unfold widget_guid in Hx. destruct (IconWidget.data x) as [d|]; [|done].
    cbn in Hx. destruct (guid d) as [g'|]; [|done].
    destruct (N.eqb_spec g' g); [congruence|done].
Qed.

Lemma find_by_guid_absent l g :
  Forall (fun x => widget_guid x <> Some g) l -> find_by_guid l g = None.
Proof.
  induction 1 as [|x l Hx _ IH]; cbn; [done|].
  unfold widget_guid in Hx. destruct (IconWidget.data x) as [d|]; [|done].
  cbn in Hx. destruct (guid d) as [g'|]; [|done].
  destruct (N.eqb_spec g' g); [congruence|done].
Qed.

Lemma find_by_hwnd_first l1 w l2 h u :
  Forall (fun x => widget_pair x <> Some (h, u)) l1 -> widget_pair w = Some (h, u) ->
  find_by_hwnd (l1 ++ w :: l2) h u = Some w.
Proof.
  intros Hl1 Hw. induction Hl1 as [|x l1 Hx _ IH]; cbn.
  - unfold widget_pair in Hw. destruct (IconWidget.data w) as [d|]; [|done].
    cbn in Hw. injection Hw as -> ->. by rewrite !Z.eqb_refl.
  - unfold widget_pair in Hx. destruct (IconWidget.data x) as [d|]; [|done].
    cbn in Hx.
    destruct (Z.eqb_spec (hWnd d) h), (Z.eqb_spec (uID d) u); cbn; try done.
    congruence.
Qed.

Lemma find_by_hwnd_absent l h u :
  Forall (fun x => widget_pair x <> Some (h, u)) l -> find_by_hwnd l h u = None.
Proof.
  induction 1 as [|x l Hx _ IH]; cbn; [done|].
  unfold widget_pair in Hx. destruct (IconWidget.data x) as [d|]; [|done].
  cbn in Hx.
  destruct (Z.eqb_spec (hWnd d) h), (Z.eqb_spec (uID d) u); cbn; try done.
  congruence.
Qed.

Section Repeat.
Context {W : WinTypes}.

Lemma refresh_new_widget id pinned d :
  modify_widget id (refresh_widget d) [IconWidget.mk id (Some IconData_new) pinned false]
  = [refresh_widget d (IconWidget.mk id (Some IconData_new) pinned false)].
Proof. unfold modify_widget. cbn. by rewrite Nat.eqb_refl. Qed.

(** What an unfiltered notification does to the registry, and to which
    entry the same notification resolves afterwards: the entry that it
    refreshed, or the entry that it created. *)
Lemma modified_shape s d :
  wf s -> is_filtered (filtered_guids s) (guid d) = false ->
  (exists l1 icon l2,
      icons s = l1 ++ icon :: l2
      /\ find_icon (icons s) (guid d) (hWnd d) (uID d) = Some icon
      /\ on_icon_modified s d
         = mkSystray (filtered_guids s) (l1 ++ refresh_widget d icon :: l2)
             (current_state s) (unpinned_layout s) (pinned_layout s) (next_obj s)
      /\ find_icon (l1 ++ refresh_widget d icon :: l2) (guid d) (hWnd d) (uID d)
         = Some (refresh_widget d icon))
  \/ (exists icon,
        icon = IconWidget.mk (next_obj s) (Some IconData_new)
                 (IconState.is_pinned (saved_data (current_state s) d)) false
        /\ find_icon (icons s) (guid d) (hWnd d) (uID d) = None
        /\ on_icon_modified s d
           = mkSystray (filtered_guids s) (icons s ++ [refresh_widget d icon])
               (current_state s)
               (if IconState.is_pinned (saved_data (current_state s) d)
                then unpinned_layout s else unpinned_layout s ++ [next_obj s])
               (if IconState.is_pinned (saved_data (current_state s) d)
                then pinned_layout s ++ [next_obj s] else pinned_layout s)
               (S (next_obj s))
        /\ find_icon (icons s ++ [refresh_widget d icon]) (guid d) (hWnd d) (uID d)
           = Some (refresh_widget d icon)).
Proof.
  intros (Hids & Hnd & _) Hfilt.
  unfold on_icon_modified. rewrite Hfilt.
  destruct (find_icon (icons s) (guid d) (hWnd d) (uID d)) as [icon|] eqn:Hfind.
  - left. pose proof Hfind as Hfind0. unfold find_icon in Hfind.
    assert (Hshape : exists l1 l2 old,
      icons s = l1 ++ icon :: l2 /\ IconWidget.data icon = Some old
      /\ find_icon (l1 ++ refresh_widget d icon :: l2) (guid d) (hWnd d) (uID d)
         = Some (refresh_widget d icon)).
    { unfold find_icon. destruct (guid d) as [g|] eqn:Hgd.
      - destruct (find_by_guid (icons s) g) as [w|] eqn:Hbg.
        + injection Hfind as ->.
          apply find_by_guid_Some in Hbg as (l1 & l2 & Hl & Hw & Hl1).
          destruct (widget_guid_data _ _ Hw) as [old Hold].
          exists l1, l2, old. split; [done|]. split; [done|].
          rewrite find_by_guid_first; [done|done|].
          rewrite (refresh_widget_guid _ _ _ Hold).
          unfold widget_guid in Hw. rewrite Hold in Hw. cbn in Hw.
          destruct (carries NIF_GUID d); congruence.
        + apply find_by_guid_None in Hbg.
          apply find_by_hwnd_Some in Hfind as (l1 & l2 & Hl & Hw & Hl1).
          destruct (widget_pair_data _ _ Hw) as [old Hold].
          exists l1, l2, old. split; [done|]. split; [done|].
          rewrite Hl in Hbg. apply Forall_app in Hbg as [Hg1 Hg2].
          apply Forall_cons in Hg2 as [Hgi Hg2].
          pose proof (refresh_widget_guid d icon old Hold) as Hrg.
          pose proof (refresh_widget_pair d icon old Hold) as Hrp.
          destruct (carries NIF_GUID d) eqn:Hc.
          * rewrite find_by_guid_first; [done|done|by rewrite Hrg].
          * rewrite find_by_guid_absent.
            -- by apply find_by_hwnd_first.
            -- apply Forall_app. split; [done|]. constructor; [|done].
               rewrite Hrg. unfold widget_guid in Hgi. by rewrite Hold in Hgi.
      - apply find_by_hwnd_Some in Hfind as (l1 & l2 & Hl & Hw & Hl1).
        destruct (widget_pair_data _ _ Hw) as [old Hold].
        exists l1, l2, old. split; [done|]. split; [done|].
        apply find_by_hwnd_first; [done|].
        by rewrite (refresh_widget_pair _ _ _ Hold). }
    destruct Hshape as (l1 & l2 & old & Hl & Hold & Hagain).
    exists l1, icon, l2. split; [done|]. split; [done|].
    split; [|done]. rewrite Hl in Hnd |- *. by rewrite modify_widget_split.
  - right. eexists. split; [reflexivity|]. split; [done|].
    rewrite modify_widget_app, modify_widget_fresh, refresh_new_widget by done.
    split; [done|].
    set (icon := IconWidget.mk _ _ _ _).
    pose proof (refresh_widget_guid d icon IconData_new eq_refl) as Hrg.
    pose proof (refresh_widget_pair d icon IconData_new eq_refl) as Hrp.
    unfold find_icon in Hfind |- *.
    destruct (guid d) as [g|] eqn:Hgd.
    + destruct (find_by_guid (icons s) g) as [w|] eqn:Hbg; [done|].
      apply find_by_guid_None in Hbg. apply find_by_hwnd_None in Hfind.
      destruct (carries NIF_GUID d) eqn:Hc.
      * rewrite find_by_guid_first; [done|done|by rewrite Hrg].
      * rewrite find_by_guid_absent.
        -- by apply find_by_hwnd_first.
        -- apply Forall_app. split; [done|]. constructor; [|done].
           by rewrite Hrg.
    + apply find_by_hwnd_None in Hfind. by apply find_by_hwnd_first.
Qed.

(** X2: a notification that the filter lets through can be handled again
    at once without any effect: the registry, the groups, the saved state
    and the allocation of identities are as after the first time. *)
Theorem on_icon_modified_idempotent (s : Systray) (d : IconData) :
  wf s ->
  on_icon_modified (on_icon_modified s d) d = on_icon_modified s d.
Proof.
  intros Hwf.
  destruct (is_filtered (filtered_guids s) (guid d)) eqn:Hfilt.
  { by rewrite !(on_icon_modified_filtered s d Hfilt). }
  pose proof (wf_on_icon_modified s d Hwf) as Hwf'.
  destruct (modified_shape s d Hwf Hfilt)
    as [(l1 & icon & l2 & Hl & Hfind & Hs' & Hagain)
       |(icon & Hicon & Hfind & Hs' & Hagain)].
  - rewrite Hs' in Hwf' |- *. destruct Hwf' as (_ & Hnd' & _).
    unfold on_icon_modified at 1. cbn [filtered_guids icons current_state
      unpinned_layout pinned_layout next_obj]. rewrite Hfilt, Hagain.
    cbn [icons] in Hnd'. rewrite modify_widget_split by done.
    by rewrite refresh_widget_idempotent.
  - rewrite Hs' in Hwf' |- *. destruct Hwf' as (_ & Hnd' & _).
    unfold on_icon_modified at 1. cbn [filtered_guids icons current_state
      unpinned_layout pinned_layout next_obj]. rewrite Hfilt, Hagain.
    cbn [icons] in Hnd'.
    rewrite (modify_widget_split _ (icons s) _ []) by done.
    by rewrite refresh_widget_idempotent.
Qed.
End Repeat.

Lemma on_icon_modified_idempotent_witness :
  on_icon_modified (W:=shellapi)
    (on_icon_modified (W:=shellapi) twin_state
       (notification None 100 2 8 "C:\app.exe"))
    (notification None 100 2 8 "C:\app.exe")
  = on_icon_modified (W:=shellapi) twin_state
      (notification None 100 2 8 "C:\app.exe").
Proof.
  apply (on_icon_modified_idempotent (W:=shellapi)).
  repeat split; cbn; compute_done.
Defined.

(** ** What a notification leaves alone *)

Section Frame.
Context {W : WinTypes}.

Lemma find_icon_has_data l uuid h u icon :
  find_icon l uuid h u = Some icon -> is_Some (IconWidget.data icon) /\ icon ∈ l.
Proof.
  intros Hf. pose proof (find_icon_cases l uuid h u) as Hc. rewrite Hf in Hc.
  destruct Hc as [(g & _ & l1 & l2 & -> & Hw & _)|(_ & l1 & l2 & -> & Hw & _)].
  - split; [by eapply widget_guid_data|]. apply elem_of_app. right. by left.
  - split; [by eapply widget_pair_data|]. apply elem_of_app. right. by left.
Qed.

(** X3: after a notification that the filter lets through, the same
    identity resolves to an entry of the registry that has the window
    handle and the resource id of the notification and is hidden exactly
    when the state flag is present and [dwState] is 1. *)
Theorem modified_entry_resolves (s : Systray) (d : IconData) :
  wf s -> is_filtered (filtered_guids s) (guid d) = false ->
  exists w,
    find_icon (icons (on_icon_modified s d)) (guid d) (hWnd d) (uID d) = Some w
    /\ w ∈ icons (on_icon_modified s d)
    /\ widget_pair w = Some (hWnd d, uID d)
    /\ IconWidget.isHidden w = carries NIF_STATE d && (dwState d =? 1).
Proof.
  intros Hwf Hfilt.
  destruct (modified_shape s d Hwf Hfilt)
    as [(l1 & icon & l2 & Hl & Hfind & -> & Hagain)
       |(icon & Hicon & Hfind & -> & Hagain)]; cbn [icons].
  - exists (refresh_widget d icon). split; [done|].
    split; [apply elem_of_app; right; by left|].
    destruct (find_icon_has_data _ _ _ _ _ Hfind) as [[old Hold] _].
    split; [by eapply refresh_widget_pair|done].
  - exists (refresh_widget d icon). split; [done|].
    split; [apply elem_of_app; right; by left|].
    split; [|done]. apply (refresh_widget_pair d icon IconData_new). by subst.
Qed.


(** X5: a GUID of the filter set never enters the registry: in every
    state reached from an empty registry by modify notifications, delete
    notifications and sweeps, no entry has a GUID that is filtered. *)
Theorem filtered_guid_never_registered (filtered : gset N)
    (cs : gmap string IconState.t) (es : list Event) :
  Forall (fun w => forall g, widget_guid w = Some g -> g ∉ filtered)
    (icons (run (empty_registry filtered cs) es)).
Proof.
  assert (Hgen : forall es s, wf s ->
    Forall (fun w => forall g, widget_guid w = Some g -> g ∉ filtered_guids s) (icons s) ->
    Forall (fun w => forall g, widget_guid w = Some g -> g ∉ filtered_guids s)
      (icons (run s es)) /\ filtered_guids (run s es) = filtered_guids s).
  { clear es. induction es as [|e es IH]; intros s Hwf Hinv; [done|].
    unfold run in *. cbn [fold_left].
    assert (Hstep : Forall (fun w => forall g, widget_guid w = Some g ->
                       g ∉ filtered_guids s) (icons (handle s e))).
    { pose proof (handle_icons_sublist s e) as Hsub.
      destruct e as [d|d|v]; [|by eapply Forall_sublist..].
      cbn [handle].
      destruct (is_filtered (filtered_guids s) (guid d)) eqn:Hfilt.
      { by rewrite (on_icon_modified_filtered s d Hfilt). }
      assert (Hd : forall g, guid d = Some g -> g ∉ filtered_guids s).
      { intros g Hg Hin. rewrite Hg in Hfilt. cbn in Hfilt.
        by rewrite bool_decide_eq_false in Hfilt. }
      destruct (modified_shape s d Hwf Hfilt)
        as [(l1 & icon & l2 & Hl & Hfind & -> & Hagain)
           |(icon & Hicon & Hfind & -> & Hagain)]; cbn [icons].
      - rewrite Hl in Hinv. apply Forall_app in Hinv as [H1 H2].
        apply Forall_cons in H2 as [Hi H2].
        apply Forall_app. split; [done|]. constructor; [|done].
        destruct (find_icon_has_data _ _ _ _ _ Hfind) as [[old Hold] _].
        intros g. rewrite (refresh_widget_guid _ _ _ Hold).
        destruct (carries NIF_GUID d); [apply Hd|].
        intros Hg. apply Hi. unfold widget_guid. by rewrite Hold.
      - apply Forall_app. split; [done|]. repeat constructor.
        intros g. rewrite (refresh_widget_guid d icon IconData_new) by (by subst).
        destruct (carries NIF_GUID d); [apply Hd|done]. }
    destruct (IH (handle s e)) as [IH1 IH2].
    - by apply wf_handle.
    - by rewrite handle_filtered_guids.
    - rewrite handle_filtered_guids in IH1, IH2. done. }
  destruct (Hgen es (empty_registry filtered cs)) as [Hres _].
  - apply wf_empty_registry.
  - constructor.
  - exact Hres.
Qed.
End Frame.

(** ** Removal *)


Lemma layout_remove_gone id l : id ∉ layout_remove id l.
Proof. unfold layout_remove. rewrite list_elem_of_filter. tauto. Qed.




(** X8: a delete notification for an identity that the registry does not
    know (no entry has its GUID, no entry has its pair) changes nothing. *)
Theorem delete_of_unknown_identity (s : Systray) (d : IconData) :
  (forall g, guid d = Some g -> Forall (fun x => widget_guid x <> Some g) (icons s)) ->
  Forall (fun x => widget_pair x <> Some (hWnd d, uID d)) (icons s) ->
  on_icon_deleted s d = s.
Proof.
  intros Hg Hp. apply on_icon_deleted_unresolved. unfold find_icon.
  destruct (guid d) as [g|].
  - rewrite find_by_guid_absent by (by apply Hg). by apply find_by_hwnd_absent.
  - by apply find_by_hwnd_absent.
Qed.

(** ** The liveness sweep *)

Lemma filter_all {A} (P : A -> Prop) `{!forall x, Decision (P x)} (l : list A) :
  Forall P l -> filter P l = l.
Proof.
  induction 1 as [|x l Hx _ IH]; [done|].
  by rewrite filter_cons, decide_True, IH.
Qed.

Lemma filter_none {A} (P : A -> Prop) `{!forall x, Decision (P x)} (l : list A) :
  Forall (fun x => ~ P x) l -> filter P l = [].
Proof.
  induction 1 as [|x l Hx _ IH]; [done|].
  by rewrite filter_cons, decide_False, IH.
Qed.

Lemma check_icons_all_valid v s :
  Forall (fun w => still_valid v w = true) (icons s) -> check_icons v s = s.
Proof.
  intros Hall. unfold check_icons.
  rewrite (filter_all _ _ Hall).
  rewrite (filter_none (fun w => still_valid v w = false)).
  2: { eapply Forall_impl; [exact Hall|]. cbn. intros w ->. done. }
  cbn. rewrite !filter_all; [by destruct s|..];
    apply Forall_forall; intros x _; apply not_elem_of_nil.
Qed.

(** X9: after a sweep every entry that has data has a valid window; a
    sweep that finds every window valid changes nothing, so a second sweep
    with the same answers of the platform changes nothing. *)
Theorem check_icons_settles (v : Z -> bool) (s : Systray) :
  Forall (fun w => still_valid v w = true) (icons (check_icons v s))
  /\ check_icons v (check_icons v s) = check_icons v s
  /\ (Forall (fun w => still_valid v w = true) (icons s) -> check_icons v s = s).
Proof.
  assert (Hv : Forall (fun w => still_valid v w = true) (icons (check_icons v s))).
  { cbn [check_icons icons]. apply Forall_forall. intros w Hw.
    by apply list_elem_of_filter in Hw as [Hw _]. }
  split; [done|]. split; [by apply check_icons_all_valid|].
  apply check_icons_all_valid.
Qed.

(** ** Snapshot and persistence, once more *)

Lemma widgets_state_after_snapshot s :
  widgets_state (update_current_state s) = widgets_state s.
Proof. reflexivity. Qed.

Lemma update_current_state_twice s :
  update_current_state (update_current_state s) = update_current_state s.
Proof.
  unfold update_current_state at 1. rewrite widgets_state_after_snapshot.
  cbn [update_current_state filtered_guids icons current_state unpinned_layout
       pinned_layout next_obj].
  by rewrite (assoc_L (∪)), (idemp_L (∪)).
Qed.

(** X10: saving is idempotent: a second snapshot right after the first
    changes nothing in memory, and a second [save_state] right after the
    first writes the same file again. *)
Theorem save_state_idempotent (s : Systray) (f : StateFile) :
  update_current_state (update_current_state s) = update_current_state s
  /\ save_state (fst (save_state s f)) (snd (save_state s f)) = save_state s f.
Proof.
  split; [apply update_current_state_twice|].
  unfold save_state. cbn [fst snd read_saved_state].
  rewrite update_current_state_twice.
  by rewrite (assoc_L (∪)), (idemp_L (∪)).
Qed.

(** X11: entries survive hiding: a key that no visible widget of the
    registry writes keeps its entry through [sort_icons] and through
    [save_state], and no key is ever dropped from the saved state. *)
Theorem unwritten_entries_survive (s : Systray) (f : StateFile) (k : string) :
  filter (fun w => writes_key k w = true) (icons s) = [] ->
  current_state (sort_icons s) !! k = current_state s !! k
  /\ current_state (fst (save_state s f)) !! k = current_state s !! k
  /\ dom (current_state s) ⊆ dom (current_state (sort_icons s))
  /\ dom (current_state s) ⊆ dom (current_state (fst (save_state s f))).
Proof.
  intros Hnone. split; [|split; [|split]].
  - unfold sort_icons. rewrite update_current_state_lookup.
    cbn [icons current_state]. by rewrite Hnone.
  - cbn [save_state fst]. rewrite update_current_state_lookup. by rewrite Hnone.
  - cbn [sort_icons update_current_state current_state]. rewrite dom_union. set_solver.
  - cbn [save_state fst update_current_state current_state]. rewrite dom_union.
    set_solver.
Qed.

Lemma unwritten_entries_survive_witness :
  current_state (sort_icons hidden_with_history) !! "C:\a.exe"%string
  = Some (IconState.mk false 4).
Proof.
  destruct (unwritten_entries_survive hidden_with_history FileNotFound "C:\a.exe")
    as [Hs _].
  - vm_compute. reflexivity.
  - rewrite Hs. vm_compute. reflexivity.
Defined.

(** X12: when the state file is missing or does not decode, [load_state]
    gives the empty map, [save_state] writes exactly the snapshot, and a
    load after that save gives back exactly the snapshot. *)
Theorem missing_or_corrupt_file (s : Systray) :
  current_state (load_state s FileNotFound) = ∅
  /\ current_state (load_state s JSONDecodeError) = ∅
  /\ snd (save_state s FileNotFound)
     = JsonObject (to_dict <$> current_state (update_current_state s))
  /\ snd (save_state s JSONDecodeError)
     = JsonObject (to_dict <$> current_state (update_current_state s))
  /\ current_state (load_state (fst (save_state s FileNotFound))
                      (snd (save_state s FileNotFound)))
     = current_state (update_current_state s)
  /\ current_state (load_state (fst (save_state s JSONDecodeError))
                      (snd (save_state s JSONDecodeError)))
     = current_state (update_current_state s).
Proof.
  assert (Hrt : forall m : gmap string IconState.t,
             from_dict <$> ((to_dict <$> m) ∪ ∅) = m).
  { intros m. rewrite (right_id_L ∅ (∪)). apply map_eq. intros k.
    rewrite !lookup_fmap. destruct (m !! k) as [v|]; cbn; [|done].
    by rewrite from_dict_to_dict. }
  cbn [load_state save_state fst snd read_saved_state current_state].
  rewrite !fmap_empty, !(right_id_L ∅ (∪)).
  repeat split; try done.
  - specialize (Hrt (current_state (update_current_state s))).
    by rewrite (right_id_L ∅ (∪)) in Hrt.
  - specialize (Hrt (current_state (update_current_state s))).
    by rewrite (right_id_L ∅ (∪)) in Hrt.
Qed.

Lemma indexOf_spec id l :
  id ∈ l -> 0 <= indexOf id l /\ l !! Z.to_nat (indexOf id l) = Some id.
Proof.
  induction l as [|x l IH]; intros Hin; [by apply elem_of_nil in Hin|].
  cbn [indexOf]. destruct (Nat.eqb_spec x id) as [->|Hne]; [done|].
  apply elem_of_cons in Hin as [->|Hin]; [done|].
  destruct (IH Hin) as [Hge Hl].
  destruct (Z.eqb_spec (indexOf id l) (-1)); [lia|].
  split; [lia|]. by rewrite Z2Nat.inj_add, Nat.add_1_r by lia.
Qed.

(** X13: the index that the snapshot records for a widget is its position
    in the unpinned group when that group holds it, else its position in
    the pinned group, and -1 when no group holds it. *)
Theorem layout_index_is_position (s : Systray) (id : nat) :
  let i := layout_index s id in
  if decide (id ∈ unpinned_layout s) then
    0 <= i /\ unpinned_layout s !! Z.to_nat i = Some id
  else if decide (id ∈ pinned_layout s) then
    0 <= i /\ pinned_layout s !! Z.to_nat i = Some id
  else i = -1.
Proof.
  cbv zeta. unfold layout_index.
  destruct (decide (id ∈ unpinned_layout s)) as [Hu|Hu].
  - destruct (indexOf_spec _ _ Hu) as [Hge Hl].
    destruct (Z.eqb_spec (indexOf id (unpinned_layout s)) (-1)); [lia|done].
  - rewrite (indexOf_absent _ _ Hu). cbn.
    destruct (decide (id ∈ pinned_layout s)) as [Hp|Hp].
    + by apply indexOf_spec.
    + by apply indexOf_absent.
Qed.

(** X14: an order that was just recorded is kept: when every laid-out
    widget is a visible widget of the registry, each in one group, and the
    visible widgets have distinct snapshot keys, [sort_icons] right after a
    snapshot or a [save_state] leaves both groups as they are. *)
Theorem sort_after_snapshot_keeps_order (s : Systray) (f : StateFile) :
  NoDup (unpinned_layout s ++ pinned_layout s) ->
  all_visible (icons s) (unpinned_layout s ++ pinned_layout s) ->
  NoDup (omap visible_key (icons s)) ->
  let s' := sort_icons (update_current_state s) in
  let s'' := sort_icons (fst (save_state s f)) in
  unpinned_layout s' = unpinned_layout s /\ pinned_layout s' = pinned_layout s
  /\ unpinned_layout s'' = unpinned_layout s /\ pinned_layout s'' = pinned_layout s.
Proof.
  intros Hnd Hvis Hkeys. cbv zeta.
  cbn [save_state fst].
  assert (Hboth : unpinned_layout (sort_icons (update_current_state s))
                  = unpinned_layout s
                  /\ pinned_layout (sort_icons (update_current_state s))
                     = pinned_layout s); [|tauto].
  apply NoDup_app in Hnd as (HndU & Hdisj & HndP).
  apply Forall_app in Hvis as [HvisU HvisP].
  assert (Hkey : forall id w, widget_of (icons s) id = Some w ->
             is_Some (visible_key w) ->
             get_sort_index (current_state (update_current_state s)) w
             = layout_index s id).
  { intros id w Hw Hv. destruct (widget_of_Some _ _ _ Hw) as [<- Hin].
    by apply sort_index_after_snapshot. }
  assert (Hgroup : forall layout,
             NoDup layout -> all_visible (icons s) layout ->
             (forall i id, layout !! i = Some id -> layout_index s id = Z.of_nat i) ->
             sorted_layout (update_current_state s) layout = layout).
  { intros layout Hndl Hvl Hpos.
    pose proof (all_visible_resolves _ _ Hvl) as Hres.
    pose proof (get_widgets_ids (icons s) layout Hres) as Hids.
    pose proof (get_widgets_registered (icons s) layout) as Hreg.
    set (ws := get_widgets_from_layout (icons s) layout) in *.
    clearbody ws. subst layout. apply sorted_layout_fixed.
    - done.
    - done.
    - intros i w Hi.
      assert (Hli : (IconWidget.obj_id <$> ws) !! i = Some (IconWidget.obj_id w)).
      { by rewrite list_lookup_fmap, Hi. }
      rewrite Forall_forall in Hreg.
      assert (Hw : widget_of (icons s) (IconWidget.obj_id w) = Some w).
      { apply Hreg. by eapply list_elem_of_lookup_2. }
      unfold all_visible in Hvl. rewrite Forall_forall in Hvl.
      destruct (Hvl (IconWidget.obj_id w)) as (w' & Hw' & Hv);
        [by eapply list_elem_of_lookup_2|].
      rewrite (Hkey _ w Hw) by congruence. by apply Hpos. }
  split.
  - apply (Hgroup (unpinned_layout s)); [done|done|].
    intros i id Hi. unfold layout_index.
    rewrite (indexOf_lookup _ i) by done.
    destruct (Z.eqb_spec (Z.of_nat i) (-1)); [lia|done].
  - apply (Hgroup (pinned_layout s)); [done|done|].
    intros i id Hi. unfold layout_index.
    rewrite indexOf_absent.
    2: { intros Hu. apply (Hdisj _ Hu). by eapply list_elem_of_lookup_2. }
    cbn. by apply indexOf_lookup.
Qed.

Lemma sort_after_snapshot_keeps_order_witness :
  unpinned_layout (sort_icons (update_current_state unsorted_state)) = [0%nat; 1%nat]
  /\ pinned_layout (sort_icons (fst (save_state unsorted_state FileNotFound)))
     = [2%nat].
Proof.
  destruct (sort_after_snapshot_keeps_order unsorted_state FileNotFound)
    as (Hu & _ & _ & Hp).
  - compute_done.
  - unfold all_visible. repeat constructor; eexists; (split; [reflexivity|]);
      vm_compute; eauto.
  - compute_done.
  - rewrite Hu, Hp. split; reflexivity.
Defined.

(** ** Groups and pin flags *)














Section GroupInvariant.
Context {W : WinTypes}.















End GroupInvariant.


(** ** Pin toggle *)

Lemma indexOf_snoc id l : id ∉ l -> indexOf id (l ++ [id]) = Z.of_nat (length l).
Proof.
  induction l as [|x l IH]; intros Hin; cbn.
  - by rewrite Nat.eqb_refl.
  - rewrite not_elem_of_cons in Hin. destruct Hin as [Hne Hin].
    destruct (Nat.eqb_spec x id); [congruence|]. rewrite IH by done.
    destruct (Z.eqb_spec (Z.of_nat (length l)) (-1)); lia.
Qed.




Lemma modified_entry_resolves_witness :
  exists w,
    find_icon
      (icons (on_icon_modified (W:=shellapi) twin_state
                (notification None 100 2 8 "C:\app.exe")))
      None 100 2 = Some w
    /\ IconWidget.isHidden w = false.
Proof.
  destruct (modified_entry_resolves (W:=shellapi) twin_state
              (notification None 100 2 8 "C:\app.exe")) as (w & Hf & _ & _ & Hh).
  - repeat split; cbn; compute_done.
  - reflexivity.
  - exists w. split; [exact Hf|exact Hh].
Defined.




Lemma delete_of_unknown_identity_witness :
  on_icon_deleted twin_state (notification (Some 9%N) 300 1 0 "C:\z.exe")
  = twin_state.
Proof.
  apply delete_of_unknown_identity.
  - intros g _. repeat constructor; discriminate.
  - repeat constructor; cbn; intros [=].
Defined.

(** X17: a pin toggle is saved at once: when no other widget writes the
    key of the toggled icon, the saved state and the state file hold, under
    that key, the flipped pin flag and the last position of the group the
    icon went to, and a load gives this entry back. *)
Theorem pin_toggle_is_saved (s : Systray) (f : StateFile) (w : IconWidget.t)
    (d : IconData) :
  wf s -> groups_mirror_pins s -> w ∈ icons s -> IconWidget.data w = Some d ->
  Forall (fun w' => IconWidget.obj_id w' <> IconWidget.obj_id w ->
                    writes_key (snapshot_key d) w' = false) (icons s) ->
  let st := on_icon_pinned_changed (IconWidget.obj_id w) s f in
  let target := if IconWidget.is_pinned w then unpinned_layout s
                else pinned_layout s in
  let entry := IconState.mk (negb (IconWidget.is_pinned w))
                 (Z.of_nat (length target)) in
  current_state (fst st) !! snapshot_key d = Some entry
  /\ read_saved_state (snd st) !! snapshot_key d = Some (to_dict entry)
  /\ current_state (load_state (fst st) (snd st)) !! snapshot_key d = Some entry.
Proof.
  intros (_ & Hndi & _) (Hnd & Hmem & Hpin) Hw Hd Hothers. cbv zeta.
  set (id := IconWidget.obj_id w). set (k := snapshot_key d).
  assert (Hin : id ∈ unpinned_layout s ++ pinned_layout s).
  { apply Hmem, list_elem_of_fmap. eauto. }
  apply NoDup_app in Hnd as (Hu & Hdisj & Hp).
  rewrite Forall_forall in Hpin. pose proof (Hpin w Hw) as Hpw. fold id in Hpw.
  apply list_elem_of_split in Hw as (l1 & l2 & Hl).
  assert (Hwriters : forall b,
    filter (fun x => writes_key k x = true)
      (modify_widget id (pin_and_show b) (icons s)) = [pin_and_show b w]).
  { intros b. rewrite Hl in Hndi, Hothers |- *.
    unfold id. rewrite modify_widget_split by done.
    pose proof Hndi as Hndi'. rewrite fmap_app, fmap_cons in Hndi'.
    apply NoDup_app in Hndi' as (_ & Hd1 & Hnd2).
    apply NoDup_cons in Hnd2 as [Hd2 _].
    apply Forall_app in Hothers as [Ho1 Ho2]. apply Forall_cons in Ho2 as [_ Ho2].
    rewrite filter_app, filter_cons.
    rewrite (filter_none _ l1), (filter_none _ l2).
    - rewrite decide_True; [done|]. unfold writes_key, pin_and_show. cbn.
      rewrite Hd. cbn. by rewrite bool_decide_eq_true_2.
    - rewrite Forall_forall in Ho2 |- *. intros x Hx. rewrite Ho2; [done|done|].
      intros Heq. apply Hd2. rewrite <- Heq. apply list_elem_of_fmap. eauto.
    - rewrite Forall_forall in Ho1 |- *. intros x Hx. rewrite Ho1; [done|done|].
      intros Heq. apply (Hd1 (IconWidget.obj_id x)); [apply list_elem_of_fmap; eauto|].
      rewrite Heq. by left. }
  assert (Hsnap : current_state (fst (on_icon_pinned_changed id s f)) !! k
                  = Some (IconState.mk (negb (IconWidget.is_pinned w))
                            (Z.of_nat (length (if IconWidget.is_pinned w
                                               then unpinned_layout s
                                               else pinned_layout s))))).
  { unfold on_icon_pinned_changed. cbn [save_state fst].
    rewrite update_current_state_lookup.
    destruct (decide (id ∈ unpinned_layout s)) as [Hiu|Hiu].
    - assert (Hip : id ∉ pinned_layout s) by (by apply Hdisj).
      assert (Hpf : IconWidget.is_pinned w = false).
      { destruct (IconWidget.is_pinned w); [|done]. exfalso. by apply Hip, Hpw. }
      unfold toggle_pinned. rewrite bool_decide_eq_true_2 by done.
      cbn [icons]. rewrite Hwriters. cbn [last].
      unfold placement, layout_index. cbn [unpinned_layout pinned_layout IconWidget.obj_id
        IconWidget.is_pinned pin_and_show].
      rewrite indexOf_absent by apply layout_remove_gone. cbn.
      by rewrite indexOf_snoc, Hpf.
    - assert (Hip : id ∈ pinned_layout s) by (apply elem_of_app in Hin; tauto).
      assert (Hpf : IconWidget.is_pinned w = true) by (by apply Hpw).
      unfold toggle_pinned. rewrite bool_decide_eq_false_2 by done.
      cbn [icons]. rewrite Hwriters. cbn [last].
      unfold placement, layout_index. cbn [unpinned_layout pinned_layout IconWidget.obj_id
        IconWidget.is_pinned pin_and_show].
      rewrite indexOf_snoc, Hpf by done.
      destruct (Z.eqb_spec (Z.of_nat (length (unpinned_layout s))) (-1)); [lia|done]. }
  assert (Hfile : read_saved_state (snd (on_icon_pinned_changed id s f)) !! k
                  = Some (to_dict (IconState.mk (negb (IconWidget.is_pinned w))
                            (Z.of_nat (length (if IconWidget.is_pinned w
                                               then unpinned_layout s
                                               else pinned_layout s)))))).
  { unfold on_icon_pinned_changed in *. rewrite save_state_written. by rewrite Hsnap. }
  split; [done|]. split; [done|].
  cbn [load_state current_state]. rewrite lookup_fmap, Hfile. cbn.
  by rewrite from_dict_to_dict.
Qed.

Lemma pin_toggle_is_saved_witness :
  read_saved_state (snd (on_icon_pinned_changed 0 sweep_state FileNotFound))
    !! "C:\a.exe"%string
  = Some (mkDict true 1).
Proof.
  destruct (pin_toggle_is_saved sweep_state FileNotFound
              (widget 0 None 100 1 "C:\a.exe" false false)
              (notification None 100 1 0 "C:\a.exe")) as (_ & Hf & _).
  - repeat split; cbn; compute_done.
  - unfold groups_mirror_pins. split; [compute_done|]. split.
    + intros id. change (id ∈ [0; 2; 1]%nat <-> id ∈ [0; 1; 2]%nat).
      rewrite !elem_of_cons, !elem_of_nil. tauto.
    + change (Forall (fun w => IconWidget.is_pinned w = true
                               <-> IconWidget.obj_id w ∈ [1%nat])
                (icons sweep_state)).
      repeat constructor; cbn; rewrite ?list_elem_of_singleton; try done; lia.
  - apply list_elem_of_here.
  - reflexivity.
  - repeat constructor; cbn; intros Hne; try done; vm_compute; reflexivity.
  - exact Hf.
Defined.

(** ** Visibility of the pinned group *)

Lemma is_layout_empty_false l layout :
  is_layout_empty l layout = false
  <-> Exists (fun id => exists w, widget_of l id = Some w
                                  /\ IconWidget.isHidden w = false) layout.
Proof.
  induction layout as [|id layout IH]; cbn [is_layout_empty].
  - split; [done|]. intros Hex. by apply Exists_nil in Hex.
  - rewrite Exists_cons. destruct (widget_of l id) as [w|] eqn:Hw.
    + destruct (IconWidget.isHidden w) eqn:Hh; cbn.
      * rewrite IH. split; [tauto|]. intros [(w' & [= <-] & Hh')|?]; [congruence|done].
      * split; [|done]. intros _. left. eauto.
    + rewrite IH. split; [tauto|]. intros [(w' & [=] & _)|?]. done.
Qed.

(** X18: after [update_pinned_widget_visibility] the pinned group is
    visible exactly when the call forces it or the group holds a widget
    that is not hidden. *)
Theorem pinned_group_visibility (force_show : bool) (s : Systray) (pw : PinnedWidget) :
  isVisible (update_pinned_widget_visibility force_show s pw) = true
  <-> force_show = true
      \/ Exists (fun id => exists w, widget_of (icons s) id = Some w
                                     /\ IconWidget.isHidden w = false)
           (pinned_layout s).
Proof.
  rewrite <- is_layout_empty_false. cbn [update_pinned_widget_visibility isVisible].
  destruct (is_layout_empty (icons s) (pinned_layout s)), force_show; cbn;
    intuition congruence.
Qed.


(** ** The filter set *)

(** X20: the filter set that [__init__] builds holds the battery GUID
    exactly when the battery icon is switched off, the volume GUID exactly
    when the volume icon is switched off, and nothing else. *)
Theorem init_filtered_guids_spec (show_battery show_volume : bool) (g : N) :
  g ∈ init_filtered_guids show_battery show_volume
  <-> (g = BATTERY_ICON_GUID /\ show_battery = false)
      \/ (g = VOLUME_ICON_GUID /\ show_volume = false).
Proof.
  unfold init_filtered_guids.
  destruct show_battery, show_volume;
    rewrite elem_of_union, ?elem_of_singleton, ?elem_of_empty; intuition congruence.
Qed.

(** ** The media widget: shortening a field *)

Section MediaField.
Context {A : Type} (dot : A).

Lemma slice_to_length (k : Z) (text : list A) :
  Z.of_nat (length (slice_to k text))
  = if k <? 0 then Z.max 0 (Z.of_nat (length text) + k)
    else Z.min k (Z.of_nat (length text)).
Proof.
  unfold slice_to. destruct (Z.ltb_spec k 0); rewrite length_take; lia.
Qed.

Lemma format_length (mfs : MaxFieldSize) (b : bool) (text : list A) :
  let m := field_bound mfs b in
  Z.of_nat (length (format_max_field_size dot mfs b text))
  = if m <? Z.of_nat (length text) then
      (if m - 3 <? 0 then Z.max 0 (Z.of_nat (length text) + (m - 3))
       else Z.min (m - 3) (Z.of_nat (length text))) + 3
    else Z.of_nat (length text).
Proof.
  cbv zeta. unfold format_max_field_size. fold (field_bound mfs b).
  destruct (Z.ltb_spec (field_bound mfs b) (Z.of_nat (length text))); [|done].
  rewrite length_app, Nat2Z.inj_add, slice_to_length. cbn. lia.
Qed.

Lemma format_within_bound (mfs : MaxFieldSize) (b : bool) (text : list A) :
  3 <= field_bound mfs b ->
  Z.of_nat (length (format_max_field_size dot mfs b text)) <= field_bound mfs b.
Proof.
  intros Hm. rewrite (format_length mfs b text).
  destruct (Z.ltb_spec (field_bound mfs b) (Z.of_nat (length text))); [|lia].
  destruct (Z.ltb_spec (field_bound mfs b - 3) 0); lia.
Qed.

(** X21: with a bound of at least 3 the result fits the bound: a text
    within the bound comes back as it is, a longer one comes back as its
    first [bound - 3] characters followed by three full stops, exactly
    [bound] characters long. *)
Theorem format_max_field_size_fits (mfs : MaxFieldSize) (b : bool) (text : list A) :
  3 <= field_bound mfs b ->
  let m := field_bound mfs b in
  let r := format_max_field_size dot mfs b text in
  Z.of_nat (length r) <= m
  /\ (Z.of_nat (length text) <= m -> r = text)
  /\ (m < Z.of_nat (length text) ->
      r = take (Z.to_nat (m - 3)) text ++ [dot; dot; dot]
      /\ Z.of_nat (length r) = m).
Proof.
  intros Hm. cbv zeta. pose proof (format_length mfs b text) as Hlen.
  cbv zeta in Hlen. split; [|split].
  - by apply format_within_bound.
  - intros Hshort. unfold format_max_field_size. fold (field_bound mfs b).
    destruct (Z.ltb_spec (field_bound mfs b) (Z.of_nat (length text))); [lia|done].
  - intros Hlong. split.
    + unfold format_max_field_size, slice_to. fold (field_bound mfs b).
      destruct (Z.ltb_spec (field_bound mfs b) (Z.of_nat (length text))); [|lia].
      destruct (Z.ltb_spec (field_bound mfs b - 3) 0); [lia|done].
    + rewrite Hlen.
      destruct (Z.ltb_spec (field_bound mfs b) (Z.of_nat (length text))); [|lia].
      destruct (Z.ltb_spec (field_bound mfs b - 3) 0); lia.
Qed.

(** X22: with a bound of at least 3, shortening a field that was already
    shortened changes nothing. *)
Theorem format_max_field_size_idempotent (mfs : MaxFieldSize) (b : bool)
    (text : list A) :
  3 <= field_bound mfs b ->
  format_max_field_size dot mfs b (format_max_field_size dot mfs b text)
  = format_max_field_size dot mfs b text.
Proof.
  intros Hm. pose proof (format_within_bound mfs b text Hm) as Hfit.
  unfold format_max_field_size at 1. fold (field_bound mfs b).
  destruct (Z.ltb_spec (field_bound mfs b)
              (Z.of_nat (length (format_max_field_size dot mfs b text)))); [lia|done].
Qed.

(** X23: with a bound below 3 the result does not fit: a text longer than
    the bound comes back longer than the bound, and, when the bound is not
    negative, at least as long as it was. *)
Theorem format_max_field_size_small_bound (mfs : MaxFieldSize) (b : bool)
    (text : list A) :
  field_bound mfs b < 3 ->
  field_bound mfs b < Z.of_nat (length text) ->
  let r := format_max_field_size dot mfs b text in
  field_bound mfs b < Z.of_nat (length r)
  /\ (0 <= field_bound mfs b -> Z.of_nat (length text) <= Z.of_nat (length r)).
Proof.
  intros Hm Hlong. cbv zeta. rewrite (format_length mfs b text).
  destruct (Z.ltb_spec (field_bound mfs b) (Z.of_nat (length text))); [|lia].
  destruct (Z.ltb_spec (field_bound mfs b - 3) 0); lia.
Qed.
End MediaField.

Lemma format_max_field_size_fits_witness :
  format_max_field_size "."%char (mkMaxFieldSize 8 20) false
    (list_ascii_of_string "Bohemian Rhapsody")
  = list_ascii_of_string "Bohem...".
Proof.
  destruct (format_max_field_size_fits "."%char (mkMaxFieldSize 8 20) false
              (list_ascii_of_string "Bohemian Rhapsody")) as (_ & _ & Hr).
  - cbn. lia.
  - destruct Hr as [Hr _]; [cbn; lia|]. rewrite Hr. reflexivity.
Defined.

Lemma format_max_field_size_idempotent_witness :
  format_max_field_size "."%char (mkMaxFieldSize 8 20) false
    (list_ascii_of_string "Bohem...")
  = list_ascii_of_string "Bohem...".
Proof.
  transitivity (format_max_field_size "."%char (mkMaxFieldSize 8 20) false
                  (format_max_field_size "."%char (mkMaxFieldSize 8 20) false
                     (list_ascii_of_string "Bohemian Rhapsody"))); [reflexivity|].
  rewrite format_max_field_size_idempotent; [reflexivity|cbn; lia].
Defined.

Lemma format_max_field_size_small_bound_witness :
  (2 < Z.of_nat (length (format_max_field_size "."%char (mkMaxFieldSize 2 20) false
                           (list_ascii_of_string "abc"))))
  /\ format_max_field_size "."%char (mkMaxFieldSize 2 20) false
       (list_ascii_of_string "abc")
     = list_ascii_of_string "ab...".
Proof.
  destruct (format_max_field_size_small_bound "."%char (mkMaxFieldSize 2 20) false
              (list_ascii_of_string "abc")) as (Hl & _).
  - cbn. lia.
  - cbn. lia.
  - split; [exact Hl|reflexivity].
Defined.
